(** * Workflow examples of the Mapbox MCP DevKit server: embedding and properties

    The development embeds three Python programs of the repository,

    - [examples/langgraph/style_workflow.py]   (module [Style]),
    - [examples/langgraph/geojson_workflow.py] (module [GeoJSON]),
    - [examples/gradio/app.py]                 (module [Gradio]),

    as executable Rocq functions, and then states and proves the properties
    the specification attaches to them.  Python dictionaries are finite maps
    from strings to Python values, exceptions are an explicit result type,
    and the two external collaborators (the reasoning backend and the MCP
    tool provider) are oracles that are consulted through a small
    state-and-exception monad. *)

From Stdlib Require Import ZArith QArith List String Ascii Lia.
From stdpp Require Import gmap strings list finite pretty.

Local Open Scope string_scope.
Local Open Scope Z_scope.
Set Warnings "-register-all".

(** ** Python values *)

(** The fragment of Python's value universe the three programs handle.
    A float is kept as the exact rational it denotes; an object that is
    neither of the other shapes is kept as its printed form, together
    with whether it can be hashed (a tuple or a frozen set can, a set or
    a model object that defines equality alone cannot). *)
Inductive pyval :=
  | PNone
  | PBool (b : bool)
  | PInt (z : Z)
  | PFloat (q : Q)
  | PStr (s : string)
  | PList (l : list pyval)
  | PDict (d : list (string * pyval))
  | PObj (repr : string) (hashable : bool).

(** A workflow state is a Python [dict] keyed by field names. *)
Abbreviation pydict := (gmap string pyval).

(** Exceptions, by class, with the text [str(e)] gives. *)
Inductive exn :=
  | KeyError (key : string)
  | AttributeError (msg : string)
  | TypeError (msg : string)
  | ValueError (msg : string)
  | JSONDecodeError (msg : string)
  | ExternalError (msg : string).

Definition str_exn (e : exn) : string :=
  match e with
  | KeyError k => "'" +:+ k +:+ "'"
  | AttributeError m | TypeError m | ValueError m
  | JSONDecodeError m | ExternalError m => m
  end.

Definition exn_class (e : exn) : string :=
  match e with
  | KeyError _ => "KeyError"
  | AttributeError _ => "AttributeError"
  | TypeError _ => "TypeError"
  | ValueError _ => "ValueError"
  | JSONDecodeError _ => "JSONDecodeError"
  | ExternalError _ => "Exception"
  end.

Inductive result (A : Type) :=
  | Ok (a : A)
  | Raise (e : exn).
Arguments Ok {A} a.
Arguments Raise {A} e.

(** Truth value of a Python object, as [if x:] and [not x] test it. *)
Definition truthy (v : pyval) : bool :=
  match v with
  | PNone => false
  | PBool b => b
  | PInt z => negb (z =? 0)
  | PFloat q => negb (Qeq_bool q 0)
  | PStr s => negb (String.eqb s "")
  | PList l => match l with [] => false | _ => true end
  | PDict d => match d with [] => false | _ => true end
  | PObj _ _ => true
  end.

(** [d[k]] and [d.get(k, default)] on a state. *)
Definition getitem (st : pydict) (k : string) : result pyval :=
  match st !! k with
  | Some v => Ok v
  | None => Raise (KeyError k)
  end.

Definition get (st : pydict) (k : string) (default : pyval) : pyval :=
  match st !! k with
  | Some v => v
  | None => default
  end.

(** Lookup in a nested dictionary, kept as an association list whose keys
    are distinct. *)
Fixpoint assoc {A : Type} (k : string) (d : list (string * A)) : option A :=
  match d with
  | [] => None
  | (k', v) :: d' => if String.eqb k k' then Some v else assoc k d'
  end.

(** [v.get(k, default)] on an arbitrary value: only a dict has [get]. *)
Definition py_get (v : pyval) (k : string) (default : pyval) : result pyval :=
  match v with
  | PDict d => Ok (match assoc k d with Some x => x | None => default end)
  | _ => Raise (AttributeError "object has no attribute 'get'")
  end.

(** [x + 1] and [x >= n] on numbers; a [bool] is an [int] in Python. *)
Definition py_succ (v : pyval) : result pyval :=
  match v with
  | PInt z => Ok (PInt (z + 1))
  | PBool b => Ok (PInt (Z.b2z b + 1))
  | PFloat q => Ok (PFloat (q + 1))
  | _ => Raise (TypeError "unsupported operand type(s) for +")
  end.

Definition py_ge_int (v : pyval) (n : Z) : result bool :=
  match v with
  | PInt z => Ok (n <=? z)
  | PBool b => Ok (n <=? Z.b2z b)
  | PFloat q => Ok (Qle_bool (inject_Z n) q)
  | _ => Raise (TypeError "'>=' not supported between these instances")
  end.

(** ** Strings *)

Definition newline : string := String (ascii_of_nat 10) "".

(** [s] between double quotes. *)
Definition quoted (s : string) : string :=
  String (ascii_of_nat 34) s +:+ String (ascii_of_nat 34) EmptyString.

(** [str.isspace] on the ASCII range. *)
Definition is_space (c : ascii) : bool :=
  let n := nat_of_ascii c in
  ((9 <=? n)%nat && (n <=? 13)%nat) || ((28 <=? n)%nat && (n <=? 32)%nat).

Fixpoint lstrip (s : string) : string :=
  match s with
  | String c s' => if is_space c then lstrip s' else s
  | EmptyString => EmptyString
  end.

Fixpoint rstrip (s : string) : string :=
  match s with
  | String c s' =>
      match rstrip s' with
      | EmptyString => if is_space c then EmptyString else String c EmptyString
      | r => String c r
      end
  | EmptyString => EmptyString
  end.

(** [s.strip()] *)
Definition py_strip (s : string) : string := rstrip (lstrip s).

(** [s.replace(old, new)] for a non-empty [old]: occurrences are replaced
    from left to right and do not overlap.  [skip] counts the characters
    of a matched occurrence that are still to be dropped. *)
Fixpoint replace_from (skip : nat) (old new s : string) : string :=
  match s with
  | EmptyString => EmptyString
  | String c s' =>
      match skip with
      | S k => replace_from k old new s'
      | O =>
          if String.prefix old s
          then new +:+ replace_from (String.length old - 1) old new s'
          else String c (replace_from 0 old new s')
      end
  end.

Definition py_replace (old new s : string) : string := replace_from 0 old new s.

(** [s.upper()] on the ASCII range. *)
Definition upper_ascii (c : ascii) : ascii :=
  let n := nat_of_ascii c in
  if ((97 <=? n)%nat && (n <=? 122)%nat) then ascii_of_nat (n - 32) else c.

Fixpoint py_upper (s : string) : string :=
  match s with
  | EmptyString => EmptyString
  | String c s' => String (upper_ascii c) (py_upper s')
  end.

(** [sub in s] *)
Fixpoint contains (sub s : string) : bool :=
  String.prefix sub s ||
  match s with
  | EmptyString => false
  | String _ s' => contains sub s'
  end.

(** The text that follows the first occurrence of [pat] in [s], and the
    text that precedes it. *)
Fixpoint string_drop (n : nat) (s : string) : string :=
  match n, s with
  | S k, String _ s' => string_drop k s'
  | _, _ => s
  end.

Fixpoint after_first (pat s : string) : option string :=
  if String.prefix pat s
  then Some (string_drop (String.length pat) s)
  else match s with
       | EmptyString => None
       | String _ s' => after_first pat s'
       end.

Fixpoint before_first (pat s : string) : option string :=
  if String.prefix pat s
  then Some EmptyString
  else match s with
       | EmptyString => None
       | String c s' => String c <$> before_first pat s'
       end.

(** [re.search(r'```json\n(.*?)\n```', s, re.DOTALL)], returning group 1:
    the opening fence is matched at its leftmost occurrence and the lazy
    group stops at the first closing fence after it. *)
Definition search_json_block (s : string) : option string :=
  match after_first ("```json" +:+ newline) s with
  | Some rest => before_first (newline +:+ "```") rest
  | None => None
  end.

(** ** The Python runtime and the external collaborators *)

(** Library functions of the Python runtime the programs call but do not
    define: [json.loads] ([None] stands for [JSONDecodeError]),
    [json.dumps], [str] of a value and [format(x, ".1%")] of a number. *)
Class PyRuntime := {
  json_loads : string -> option pyval;
  json_dumps : pyval -> string;
  py_str : pyval -> string;
  py_percent : Q -> string
}.

(** One content part of an MCP tool result.  Each attribute may be
    missing, which is what [hasattr] and [getattr] with a default test. *)
Record resource := {
  res_uri : string;
  res_text : option string;
  res_title : option string;
  res_mimeType : option string
}.

Record content_item := {
  item_type : option string;
  item_text : option string;
  item_isError : option bool;
  item_resource : option resource;
  item_str : string
}.

(** The [content] attribute of a tool result: a list of parts, or some
    other object, of which only the printed form and the truth value are
    observed. *)
Inductive content_attr :=
  | ContentList (parts : list content_item)
  | ContentOther (repr : string) (truth : bool).

Record mcp_result := {
  res_content : option content_attr;
  res_str : string
}.

(** What the reasoning backend of the LangGraph examples returns:
    [response.content]. *)
Abbreviation llm_response := string (only parsing).

(** The world outside the program: the [n]-th reply of the reasoning
    backend and of the tool provider (a reply is a value or an exception
    raised by the call), the number of inferences made so far and the log
    of the tool calls issued so far, most recent first.  A collaborator
    whose replies depend on the request is covered: along one run it
    yields one sequence of replies. *)
Record world := {
  llm_reply : nat -> result llm_response;
  tool_reply : nat -> result mcp_result;
  llm_calls : nat;
  tool_log : list (string * pyval)
}.

(** Computations that consult the world and may raise. *)
Definition M (A : Type) : Type := world -> result A * world.

Definition ret {A} (a : A) : M A := fun w => (Ok a, w).
Definition raise {A} (e : exn) : M A := fun w => (Raise e, w).
Definition bind {A B} (m : M A) (k : A -> M B) : M B :=
  fun w => match m w with
           | (Ok a, w') => k a w'
           | (Raise e, w') => (Raise e, w')
           end.
Definition lift {A} (r : result A) : M A := fun w => (r, w).

(** [try: body except Exception as e: handler(e)] *)
Definition try_except {A} (body : M A) (handler : exn -> M A) : M A :=
  fun w => match body w with
           | (Ok a, w') => (Ok a, w')
           | (Raise e, w') => handler e w'
           end.

Notation "x <- m ;; k" := (bind m (fun x => k))
  (at level 100, m at next level, right associativity).

(** [await llm.ainvoke(messages)], then [.content].  The prompt only
    feeds the backend, whose replies the world fixes, so it is not built. *)
Definition llm_ainvoke : M llm_response :=
  fun w => (llm_reply w (llm_calls w),
            {| llm_reply := llm_reply w; tool_reply := tool_reply w;
               llm_calls := S (llm_calls w); tool_log := tool_log w |}).

(** [await self.session.call_tool(tool_name, arguments)]: the call is
    logged and answered by the provider; a transport failure (connection
    included) is an exception raised here. *)
Definition session_call_tool (tool_name : string) (arguments : pyval) : M mcp_result :=
  fun w => (tool_reply w (List.length (tool_log w)),
            {| llm_reply := llm_reply w; tool_reply := tool_reply w;
               llm_calls := llm_calls w;
               tool_log := (tool_name, arguments) :: tool_log w |}).

(** ** The execution engine *)

(** The examples hand their graphs to LangGraph's [StateGraph], which is
    not part of the repository's sources; the engine below is the one the
    specification describes in its sections 4.2 and 4.3. *)

Module Engine.
Section Engine.
Context {node : Type} `{Finite node}.

(** Modelled from the spec: the target of an edge, a registered node or
    the terminal marker ([END] in [add_edge] and in the routing tables). *)
Inductive target :=
  | Node (n : node)
  | TERMINAL.

(** Modelled from the spec: a direct edge, or a conditional edge with its
    router and its routing table from decision keys to targets.  A router
    written in Python may also raise instead of returning a key. *)
Inductive edge :=
  | DirectEdge (t : target)
  | ConditionalEdge (router : pydict -> result string) (table : list (string * target)).

(** Modelled from the spec: a built graph, with its entry node, one
    executor and exactly one outgoing edge per node. *)
Record graph := {
  entry : node;
  executor : node -> pydict -> M pydict;
  out_edge : node -> edge
}.

(** Modelled from the spec: how one workflow instance ends, with a final
    state or with an Engine-level error.  A router that returns a key
    absent from the table, or no key at all, is a
    [RouterContractViolation].  [OutOfFuel] is not an outcome of the
    Engine: it marks a run cut short by the step budget of [run_from]. *)
Inductive outcome :=
  | Final (st : pydict)
  | LoopSafetyError (n : node)
  | RouterContractViolation (n : node) (key : result string)
  | OutOfFuel.

(** The instance came to an end: it was not cut short by the step budget. *)
Definition ends (o : outcome) : Prop :=
  match o with
  | Final _ | LoopSafetyError _ | RouterContractViolation _ _ => True
  | OutOfFuel => False
  end.

(** Modelled from the spec: the per-instance visit counters, with one more
    entry into node [n]. *)
Definition bump (n : node) (visits : node -> nat) : node -> nat :=
  fun m => if decide (m = n) then S (visits m) else visits m.

(** Modelled from the spec: step 3 of [run], executing the current node.
    A failure the executor does not capture itself is recorded into the
    [error] field of the state the node was entered with. *)
Definition exec_node (g : graph) (n : node) (st : pydict) : world -> pydict * world :=
  fun w => match executor g n st w with
           | (Ok st', w') => (st', w')
           | (Raise e, w') =>
               (<["error" := PStr (exn_class e +:+ ": " +:+ str_exn e)]> st, w')
           end.

(** Modelled from the spec: step 4 of [run], resolving the next node. *)
Definition resolve (g : graph) (n : node) (st : pydict) : target + result string :=
  match out_edge g n with
  | DirectEdge t => inl t
  | ConditionalEdge router table =>
      match router st with
      | Ok key => match assoc key table with
                  | Some t => inl t
                  | None => inr (Ok key)
                  end
      | Raise e => inr (Raise e)
      end
  end.

(** Modelled from the spec: the loop of [run] (steps 2 to 5) with the
    safety net of section 4.3.  [visits n] counts how often node [n] has
    been entered; entering a node that has already been entered [ceiling]
    times would exceed the hard ceiling and aborts the instance. *)
Fixpoint run_from (fuel ceiling : nat) (g : graph) (visits : node -> nat)
    (current : target) (st : pydict) (w : world) : outcome * (node -> nat) * world :=
  match fuel with
  | O => (OutOfFuel, visits, w)
  | S fuel' =>
      match current with
      | TERMINAL => (Final st, visits, w)
      | Node n =>
          if decide (ceiling <= visits n)%nat
          then (LoopSafetyError n, visits, w)
          else
            let visits' := bump n visits in
            let '(st', w') := exec_node g n st w in
            match resolve g n st' with
            | inl next => run_from fuel' ceiling g visits' next st' w'
            | inr key => (RouterContractViolation n key, visits', w')
            end
      end
  end.

(** Modelled from the spec: [run(graph, initialState)].  Every node can
    be entered at most [ceiling] times, so [ceiling * card node] node
    executions and one last look at the current node always suffice. *)
Definition run (ceiling : nat) (g : graph) (st : pydict) (w : world)
    : outcome * (node -> nat) * world :=
  run_from (ceiling * card node + 1) ceiling g (fun _ => O) (Node (entry g)) st w.

(** How many more node entries the hard ceiling still allows. *)
Definition slack (ceiling : nat) (visits : node -> nat) : nat :=
  sum_list ((fun n => ceiling - visits n)%nat <$> enum node).

(** The number of node executions of a run. *)
Definition total_visits (visits : node -> nat) : nat :=
  sum_list (visits <$> enum node).

End Engine.
Arguments target : clear implicits.
Arguments edge : clear implicits.
Arguments outcome : clear implicits.
Arguments graph : clear implicits.
End Engine.

(** ** style_workflow.py *)

Module Style.
Section Program.
Context {RT : PyRuntime}.

(** [MapboxMCPClient.call_tool] *)
Definition call_tool (tool_name : string) (arguments : pyval) : M pyval :=
  result <- session_call_tool tool_name arguments ;;
  match res_content result with
  | Some (ContentList parts) =>
      match parts with
      | [] => raise (ValueError ("Tool " +:+ tool_name +:+ " returned empty content"))
      | content_item :: _ =>
          if match item_isError content_item with Some b => b | None => false end
          then
            let error_text :=
              match item_text content_item with Some t => t | None => "Unknown error" end in
            raise (ValueError ("Tool " +:+ tool_name +:+ " failed: " +:+ error_text))
          else
            match item_text content_item with
            | Some text =>
                if negb (truthy (PStr text)) || String.eqb (py_strip text) ""
                then raise (ValueError ("Tool " +:+ tool_name +:+ " returned empty text"))
                else match json_loads text with
                     | Some v => ret v
                     | None => ret (PDict [("result", PStr text)])
                     end
            | None => ret (PDict [("result", PStr (res_str result))])
            end
      end
  | _ => ret (PDict [("result", PStr (res_str result))])
  end.

(** [analyze_requirements_node] *)
Definition analyze_requirements_node (state : pydict) : M pydict :=
  existing <- try_except
      (styles_result <- call_tool "list_styles_tool" (PDict []) ;;
       lift (py_get styles_result "styles" (PList [])))
      (fun _ => ret (PList [])) ;;
  let state := <["existing_styles" := existing]> state in
  _ <- lift (getitem state "requirements") ;;
  content <- llm_ainvoke ;;
  ret (<["style_analysis" := PStr content]> state).

(** The values of the [valid_styles] table of [create_style_node]. *)
Definition valid_styles_values : list string :=
  ["streets-v12"; "light-v11"; "dark-v11"; "outdoors-v12"; "satellite-v9"].

(** Lines 182-198 of [create_style_node]: from the backend's reply to the
    [base_style] argument. *)
Definition choose_base_style (content : string) : string :=
  let base_style := py_strip content in
  let base_style_clean := py_replace "mapbox/" "" base_style in
  if bool_decide (base_style_clean ∈ valid_styles_values)
  then base_style_clean
  else "streets-v12".

(** The [try] block of [create_style_node]; [iteration1] is [iteration + 1]. *)
Definition create_style_body (state : pydict) (style_name base_style_clean : string)
    (iteration1 : pyval) : M pydict :=
  builder_result <- call_tool "style_builder_tool"
      (PDict [("style_name", PStr style_name);
              ("base_style", PStr base_style_clean);
              ("layers", PList [])]) ;;
  result_text <- lift (py_get builder_result "result" (PStr "")) ;;
  let result_text :=
    match result_text with
    | PDict _ => PStr (json_dumps result_text)
    | _ => result_text
    end in
  match result_text with
  | PStr text =>
      match search_json_block text with
      | None => raise (ValueError "Could not find style JSON in builder response")
      | Some block =>
          match json_loads block with
          | None => raise (JSONDecodeError "Expecting value")
          | Some style_json =>
              create_result <- call_tool "create_style_tool"
                  (PDict [("name", PStr style_name); ("style", style_json)]) ;;
              created_id <- lift (py_get create_result "id" (PStr "")) ;;
              ret (<["iteration_count" := iteration1]>
                     (<["created_style_id" := created_id]> state))
          end
      end
  | _ => raise (TypeError "expected string or bytes-like object")
  end.

(** [create_style_node] *)
Definition create_style_node (state : pydict) : M pydict :=
  _ <- lift (getitem state "style_analysis") ;;
  content <- llm_ainvoke ;;
  let base_style_clean := choose_base_style content in
  let iteration := get state "iteration_count" (PInt 0) in
  iteration1 <- lift (py_succ iteration) ;;
  let style_name := "LangGraph Style v" +:+ py_str iteration1 in
  try_except
    (create_style_body state style_name base_style_clean iteration1)
    (fun e => ret (<["error" := PStr ("Failed to create style: " +:+ str_exn e)]> state)).

(** [validate_style_node] *)
Definition validate_style_node (state : pydict) : M pydict :=
  if negb (truthy (get state "created_style_id" PNone))
  then ret (<["validation_result" := PStr "No style created to validate"]>
              (<["validation_passed" := PBool false]> state))
  else
    try_except
      (style_id <- lift (getitem state "created_style_id") ;;
       style_data <- call_tool "retrieve_style_tool" (PDict [("styleId", style_id)]) ;;
       _ <- lift (getitem state "requirements") ;;
       _ <- lift (getitem state "style_analysis") ;;
       validation_text <- llm_ainvoke ;;
       let state := <["validation_result" := PStr validation_text]> state in
       let passed := contains "PASS" (py_upper validation_text) in
       let state := <["validation_passed" := PBool passed]> state in
       ret (if passed then <["final_style" := style_data]> state else state))
      (fun e =>
         ret (<["validation_result" := PStr ("Validation error: " +:+ str_exn e)]>
                (<["validation_passed" := PBool false]> state))).

(** [finalize_style_node] *)
Definition finalize_style_node (state : pydict) : M pydict :=
  _ <- lift (getitem state "created_style_id") ;;
  _ <- lift (getitem state "requirements") ;;
  _ <- lift (getitem state "validation_result") ;;
  _ <- llm_ainvoke ;;
  ret state.

(** [should_retry] *)
Definition should_retry (state : pydict) : result string :=
  if truthy (get state "error" PNone) then Ok "error"
  else if truthy (get state "validation_passed" PNone) then Ok "finalize"
  else match py_ge_int (get state "iteration_count" (PInt 0)) 3 with
       | Raise e => Raise e
       | Ok true => Ok "finalize"
       | Ok false => Ok "retry"
       end.

(** The [initial_state] literal of [example_delivery_app] and
    [example_running_app]. *)
Definition initial_state (requirements : string) : pydict :=
  <["requirements" := PStr requirements]>
  (<["existing_styles" := PList []]>
  (<["style_analysis" := PStr ""]>
  (<["created_style_id" := PStr ""]>
  (<["validation_result" := PStr ""]>
  (<["validation_passed" := PBool false]>
  (<["iteration_count" := PInt 0]>
  (<["final_style" := PDict []]>
  (<["error" := PNone]> ∅)))))))).

(** The nodes [create_workflow] registers. *)
Inductive node := Analyze | Create | Validate | Finalize.

#[global] Instance node_eq_dec : EqDecision node.
Proof. solve_decision. Defined.

#[global] Program Instance node_finite : Finite node :=
  {| enum := [Analyze; Create; Validate; Finalize] |}.
Next Obligation. by apply (bool_decide_unpack _). Qed.
Next Obligation. intros []; apply (bool_decide_unpack _); by vm_compute. Qed.

(** The table of the conditional edge [create_workflow] adds after
    [validate]. *)
Definition retry_table : list (string * Engine.target node) :=
  [("retry", Engine.Node Create);  (* Loop back to create *)
   ("finalize", Engine.Node Finalize);
   ("error", Engine.TERMINAL)].

(** [create_workflow], with the router of the conditional edge left
    open. *)
Definition create_workflow_with (router : pydict -> result string) : Engine.graph node :=
  {| Engine.entry := Analyze;
     Engine.executor := fun n =>
       match n with
       | Analyze => analyze_requirements_node
       | Create => create_style_node
       | Validate => validate_style_node
       | Finalize => finalize_style_node
       end;
     Engine.out_edge := fun n =>
       match n with
       | Analyze => Engine.DirectEdge (Engine.Node Create)
       | Create => Engine.DirectEdge (Engine.Node Validate)
       | Validate =>
           Engine.ConditionalEdge router retry_table
       | Finalize => Engine.DirectEdge Engine.TERMINAL
       end |}.

(** [create_workflow] *)
Definition create_workflow : Engine.graph node := create_workflow_with should_retry.

End Program.
End Style.

(** ** geojson_workflow.py *)

(** [==] between the values a GeoJSON document holds: numbers compare by
    value across [bool], [int] and [float], other scalars by content. *)
Definition py_number (v : pyval) : option Q :=
  match v with
  | PBool b => Some (inject_Z (Z.b2z b))
  | PInt z => Some (inject_Z z)
  | PFloat q => Some q
  | _ => None
  end.

Definition py_eq (a b : pyval) : bool :=
  match py_number a, py_number b with
  | Some x, Some y => Qeq_bool x y
  | None, None =>
      match a, b with
      | PNone, PNone => true
      | PStr x, PStr y => String.eqb x y
      | PObj x _, PObj y _ => String.eqb x y
      | PList [], PList [] => true
      | PDict [], PDict [] => true
      | _, _ => false
      end
  | _, _ => false
  end.

(** Only hashable values can be set members and dictionary keys: a list
    and a dict are not, the scalars are, and an object says so itself. *)
Definition py_hashable (v : pyval) : bool :=
  match v with
  | PList _ | PDict _ => false
  | PObj _ hashable => hashable
  | _ => true
  end.

(** [a <= b] on numbers. *)
Definition py_le (a b : pyval) : result bool :=
  match py_number a, py_number b with
  | Some x, Some y => Ok (Qle_bool x y)
  | _, _ => Raise (TypeError "'<=' not supported between these instances")
  end.

(** [len(v)] and the elements [for x in v] visits. *)
Definition py_len (v : pyval) : result Z :=
  match v with
  | PList l => Ok (Z.of_nat (List.length l))
  | PDict d => Ok (Z.of_nat (List.length d))
  | PStr s => Ok (Z.of_nat (String.length s))
  | _ => Raise (TypeError "object has no len()")
  end.

Definition py_iter (v : pyval) : result (list pyval) :=
  match v with
  | PList l => Ok l
  | PDict d => Ok ((fun kv => PStr kv.1) <$> d)
  | PStr s => Ok ((fun c => PStr (String c EmptyString)) <$> list_ascii_of_string s)
  | _ => Raise (TypeError "object is not iterable")
  end.

(** [s.split('\n')] *)
Fixpoint split_lines (s : string) : list string :=
  match s with
  | EmptyString => [EmptyString]
  | String c s' =>
      if Ascii.eqb c (ascii_of_nat 10)
      then EmptyString :: split_lines s'
      else match split_lines s' with
           | line :: lines => String c line :: lines
           | [] => [String c EmptyString]
           end
  end.

(** [c.isdigit()] on the ASCII range. *)
Definition is_digit (c : ascii) : bool :=
  let n := nat_of_ascii c in (48 <=? n)%nat && (n <=? 57)%nat.

Fixpoint take_while (f : ascii -> bool) (s : string) : string :=
  match s with
  | String c s' => if f c then String c (take_while f s') else EmptyString
  | EmptyString => EmptyString
  end.

(** [re.search(r'https://api\.mapbox\.com[^\s\)]+', s)], returning group 0. *)
Fixpoint search_mapbox_url (s : string) : option string :=
  let found :=
    if String.prefix "https://api.mapbox.com" s
    then match take_while (fun c => negb (is_space c || Ascii.eqb c ")"%char))
                 (string_drop (String.length "https://api.mapbox.com") s) with
         | EmptyString => None
         | rest => Some ("https://api.mapbox.com" +:+ rest)
         end
    else None in
  match found, s with
  | Some url, _ => Some url
  | None, String _ s' => search_mapbox_url s'
  | None, EmptyString => None
  end.

Module GeoJSON.
Section Program.
Context {RT : PyRuntime}.

(** [MapboxMCPClient.call_tool] *)
Definition call_tool (tool_name : string) (arguments : pyval) : M pyval :=
  result <- session_call_tool tool_name arguments ;;
  match res_content result with
  | Some (ContentList (first :: _)) =>
      match item_text first with
      | Some text => ret (PDict [("text", PStr text)])
      | None => raise (AttributeError "object has no attribute 'text'")
      end
  | Some (ContentList []) => ret (PDict [("text", PStr "[]")])
  | Some (ContentOther repr _) => ret (PDict [("text", PStr repr)])
  | None => ret (PObj (res_str result) false)
  end.

(** [feature.get("geometry", {}).get(key, default)] *)
Definition geometry_get (feature : pyval) (key : string) (default : pyval) : result pyval :=
  match py_get feature "geometry" (PDict []) with
  | Ok geometry => py_get geometry key default
  | Raise e => Raise e
  end.

(** The loop of [classify_data_node] that fills the set [geometry_types],
    kept as a list without repetition. *)
Fixpoint collect_geometry_types (features : list pyval) (geometry_types : list pyval)
    : result (list pyval) :=
  match features with
  | [] => Ok geometry_types
  | feature :: rest =>
      match geometry_get feature "type" (PStr "") with
      | Raise e => Raise e
      | Ok geom_type =>
          if py_hashable geom_type
          then collect_geometry_types rest
                 (if existsb (py_eq geom_type) geometry_types
                  then geometry_types
                  else (geometry_types ++ [geom_type])%list)
          else Raise (TypeError "unhashable type")
      end
  end.

Definition set_has (name : string) (geometry_types : list pyval) : bool :=
  existsb (py_eq (PStr name)) geometry_types.

(** The classification of [classify_data_node]. *)
Definition classify (geometry_types : list pyval) : string :=
  if (1 <? List.length geometry_types)%nat then "mixed"
  else if set_has "Point" geometry_types || set_has "MultiPoint" geometry_types
       then "points"
  else if set_has "LineString" geometry_types || set_has "MultiLineString" geometry_types
       then "lines"
  else if set_has "Polygon" geometry_types || set_has "MultiPolygon" geometry_types
       then "polygons"
  else "mixed".

(** [classify_data_node] *)
Definition classify_data_node (state : pydict) : M pydict :=
  data <- lift (getitem state "geojson_data") ;;
  features <- lift (py_get data "features" (PList [])) ;;
  feature_count <- lift (py_len features) ;;
  items <- lift (py_iter features) ;;
  geometry_types <- lift (collect_geometry_types items []) ;;
  ret (<["data_type" := PStr (classify geometry_types)]>
         (<["feature_count" := PInt feature_count]> state)).

(** The counters and the list of issues of [assess_quality_node]. *)
Record checks := {
  issues : list string;
  total_checks : Z;
  passed_checks : Z
}.

Definition pass (c : checks) : checks :=
  {| issues := issues c; total_checks := total_checks c;
     passed_checks := passed_checks c + 1 |}.
Definition issue (msg : string) (c : checks) : checks :=
  {| issues := (issues c ++ [msg])%list; total_checks := total_checks c;
     passed_checks := passed_checks c |}.
Definition count (c : checks) : checks :=
  {| issues := issues c; total_checks := total_checks c + 1;
     passed_checks := passed_checks c |}.

(** [lo <= x <= hi] *)
Definition py_between (lo : Z) (x : pyval) (hi : Z) : result bool :=
  match py_le (PInt lo) x with
  | Ok true => py_le x (PInt hi)
  | r => r
  end.

(** The body of the [try] of the coordinate check, for feature [i]. *)
Definition check_coordinates (state : pydict) (i : Z) (coords : pyval) (c : checks)
    : result checks :=
  match getitem state "data_type" with
  | Raise e => Raise e
  | Ok data_type =>
      if py_eq data_type (PStr "points")
      then match coords with
           | PList [lng; lat] =>
               match py_between (-180) lng 180 with
               | Raise e => Raise e
               | Ok false =>
                   Ok (issue ("Feature " +:+ py_str (PInt i) +:+
                              ": Invalid coordinates " +:+ py_str coords) c)
               | Ok true =>
                   match py_between (-90) lat 90 with
                   | Raise e => Raise e
                   | Ok true => Ok (pass c)
                   | Ok false =>
                       Ok (issue ("Feature " +:+ py_str (PInt i) +:+
                                  ": Invalid coordinates " +:+ py_str coords) c)
                   end
               end
           | _ => Ok (issue ("Feature " +:+ py_str (PInt i) +:+ ": Malformed coordinates") c)
           end
      else Ok (pass c)
  end.

(** The loop over [enumerate(features)]. *)
Fixpoint check_features (state : pydict) (i : Z) (features : list pyval) (c : checks)
    : result checks :=
  match features with
  | [] => Ok c
  | feature :: rest =>
      match geometry_get feature "coordinates" (PList []) with
      | Raise e => Raise e
      | Ok coords =>
          let c := count c in
          let c :=
            match check_coordinates state i coords c with
            | Ok c' => c'
            | Raise e =>
                issue ("Feature " +:+ py_str (PInt i) +:+
                       ": Error checking coordinates - " +:+ str_exn e) c
            end in
          check_features state (i + 1) rest c
      end
  end.

(** [all(feature.get("properties") and len(feature.get("properties", {})) > 0
         for feature in features)] *)
Fixpoint has_properties (features : list pyval) : result bool :=
  match features with
  | [] => Ok true
  | feature :: rest =>
      match py_get feature "properties" PNone with
      | Raise e => Raise e
      | Ok properties =>
          if truthy properties
          then match py_len properties with
               | Raise e => Raise e
               | Ok n => if 0 <? n then has_properties rest else Ok false
               end
          else Ok false
      end
  end.

(** [assess_quality_node] *)
Definition assess_quality_node (state : pydict) : M pydict :=
  data <- lift (getitem state "geojson_data") ;;
  features <- lift (py_get data "features" (PList [])) ;;
  let c := count {| issues := []; total_checks := 0; passed_checks := 0 |} in
  n <- lift (py_len features) ;;
  let c := if 0 <? n then pass c else issue "No features in dataset" c in
  items <- lift (py_iter features) ;;
  c <- lift (check_features state 0 items c) ;;
  let c := count c in
  complete <- lift (has_properties items) ;;
  let c := if complete : bool then pass c
           else issue "Some features have missing or empty properties" c in
  let quality_score :=
    if 0 <? total_checks c
    then PFloat (inject_Z (passed_checks c) / inject_Z (total_checks c))
    else PInt 0 in
  ret (<["issues" := PList (PStr <$> issues c)]>
         (<["quality_score" := quality_score]> state)).

(** [analyze_points_node], [analyze_lines_node], [analyze_polygons_node]
    and [analyze_mixed_node] differ in their prompts only. *)
Definition analyze_node (state : pydict) : M pydict :=
  _ <- lift (getitem state "geojson_data") ;;
  content <- llm_ainvoke ;;
  ret (<["analysis" := PStr content]> state).

Definition analyze_points_node := analyze_node.
Definition analyze_lines_node := analyze_node.
Definition analyze_polygons_node := analyze_node.
Definition analyze_mixed_node := analyze_node.

(** [create_visualization_node] *)
Definition create_visualization_node (state : pydict) : M pydict :=
  try_except
    (data <- lift (getitem state "geojson_data") ;;
     result <- call_tool "geojson_preview_tool" (PDict [("geojson", PStr (json_dumps data))]) ;;
     result_text <- lift (py_get result "text" (PStr "")) ;;
     match result_text with
     | PStr text =>
         if contains "https://api.mapbox.com" text
         then match search_mapbox_url text with
              | Some url => ret (<["visualization_url" := PStr url]> state)
              | None => ret (<["visualization_url" := PStr "Visualization created"]> state)
              end
         else ret (<["visualization_url" := PStr "Visualization created"]> state)
     | _ => raise (TypeError "argument of this type is not iterable")
     end)
    (fun e => ret (<["visualization_url" := PStr ("Error: " +:+ str_exn e)]> state)).

(** [format(v, ".1%")], which only numbers accept. *)
Definition format_percent (v : pyval) : result string :=
  match py_number v with
  | Some q => Ok (py_percent q)
  | None => Raise (TypeError "unsupported format string")
  end.

(** The filter of [generate_recommendations_node] on one line. *)
Definition is_recommendation (line : string) : bool :=
  match py_strip line with
  | EmptyString => false
  | String c _ => is_digit c || Ascii.eqb c "-"%char
  end.

(** [generate_recommendations_node] *)
Definition generate_recommendations_node (state : pydict) : M pydict :=
  _ <- lift (getitem state "data_type") ;;
  quality_score <- lift (getitem state "quality_score") ;;
  _ <- lift (format_percent quality_score) ;;
  _ <- lift (getitem state "issues") ;;
  _ <- lift (getitem state "analysis") ;;
  content <- llm_ainvoke ;;
  let recommendations :=
    py_strip <$> List.filter is_recommendation (split_lines content) in
  ret (<["recommendations" := PList (PStr <$> recommendations)]> state).

(** The numbered lines of the report, from [enumerate(..., 1)]. *)
Fixpoint numbered (i : Z) (items : list pyval) : string :=
  match items with
  | [] => EmptyString
  | rec :: rest =>
      py_str (PInt i) +:+ ". " +:+ py_str rec +:+ newline +:+ numbered (i + 1) rest
  end.

(** [generate_report_node] *)
Definition generate_report_node (state : pydict) : M pydict :=
  data_type <- lift (getitem state "data_type") ;;
  feature_count <- lift (getitem state "feature_count") ;;
  quality_score <- lift (getitem state "quality_score") ;;
  percent <- lift (format_percent quality_score) ;;
  let report :=
    newline +:+ "# GeoJSON Analysis Report" +:+ newline +:+ newline +:+
    "## Dataset Overview" +:+ newline +:+
    "- **Data Type**: " +:+ py_str data_type +:+ newline +:+
    "- **Feature Count**: " +:+ py_str feature_count +:+ newline +:+
    "- **Quality Score**: " +:+ percent +:+ newline +:+ newline +:+
    "## Quality Assessment" +:+ newline in
  found <- lift (getitem state "issues") ;;
  listed <-
    (if truthy found
     then match found with
          | PList l =>
              ret (newline +:+ "### Issues Found:" +:+ newline +:+
                   fold_right (fun x acc => "- " +:+ py_str x +:+ newline +:+ acc)
                     EmptyString (take 5 l))
          | PStr s =>
              ret (newline +:+ "### Issues Found:" +:+ newline +:+
                   fold_right (fun x acc => "- " +:+ String x EmptyString +:+ newline +:+ acc)
                     EmptyString (take 5 (list_ascii_of_string s)))
          | _ => raise (TypeError "object is not subscriptable")
          end
     else ret (newline +:+ "✅ No significant issues detected" +:+ newline)) ;;
  analysis <- lift (getitem state "analysis") ;;
  recommendations <- lift (getitem state "recommendations") ;;
  items <- lift (py_iter recommendations) ;;
  visualization_url <- lift (getitem state "visualization_url") ;;
  let report :=
    report +:+ listed +:+
    newline +:+ "## Analysis" +:+ newline +:+ newline +:+
    py_str analysis +:+ newline +:+ newline +:+
    "## Recommendations" +:+ newline +:+ newline +:+
    numbered 1 items +:+
    newline +:+ "## Visualization" +:+ newline +:+ newline +:+
    py_str visualization_url +:+ newline +:+ newline +:+
    "---" +:+ newline +:+ "*Generated by LangGraph GeoJSON Workflow*" +:+ newline in
  ret (<["report" := PStr report]> state).

(** The [routing] table of [route_by_data_type]. *)
Definition routing : list (string * string) :=
  [("points", "analyze_points"); ("lines", "analyze_lines");
   ("polygons", "analyze_polygons"); ("mixed", "analyze_mixed")].

(** [routing.get(data_type, "analyze_mixed")]: the key must be hashable;
    only a string can be equal to one of the keys of the table. *)
Definition routing_get (data_type : pyval) (default : string) : result string :=
  if py_hashable data_type
  then match data_type with
       | PStr s => Ok (match assoc s routing with Some n => n | None => default end)
       | _ => Ok default
       end
  else Raise (TypeError "unhashable type").

(** [route_by_data_type] *)
Definition route_by_data_type (state : pydict) : result string :=
  let data_type := get state "data_type" (PStr "mixed") in
  routing_get data_type "analyze_mixed".

(** The nodes [create_workflow] registers. *)
Inductive node :=
  | Classify | AssessQuality
  | AnalyzePoints | AnalyzeLines | AnalyzePolygons | AnalyzeMixed
  | Visualize | Recommend | Report.

#[global] Instance node_eq_dec : EqDecision node.
Proof. solve_decision. Defined.

#[global] Program Instance node_finite : Finite node :=
  {| enum := [Classify; AssessQuality; AnalyzePoints; AnalyzeLines; AnalyzePolygons;
              AnalyzeMixed; Visualize; Recommend; Report] |}.
Next Obligation. by apply (bool_decide_unpack _). Qed.
Next Obligation. intros []; apply (bool_decide_unpack _); by vm_compute. Qed.

(** The table of the conditional edge of [create_workflow]. *)
Definition routing_table : list (string * Engine.target node) :=
  [("analyze_points", Engine.Node AnalyzePoints);
   ("analyze_lines", Engine.Node AnalyzeLines);
   ("analyze_polygons", Engine.Node AnalyzePolygons);
   ("analyze_mixed", Engine.Node AnalyzeMixed)].

(** [create_workflow] *)
Definition create_workflow : Engine.graph node :=
  {| Engine.entry := Classify;
     Engine.executor := fun n =>
       match n with
       | Classify => classify_data_node
       | AssessQuality => assess_quality_node
       | AnalyzePoints => analyze_points_node
       | AnalyzeLines => analyze_lines_node
       | AnalyzePolygons => analyze_polygons_node
       | AnalyzeMixed => analyze_mixed_node
       | Visualize => create_visualization_node
       | Recommend => generate_recommendations_node
       | Report => generate_report_node
       end;
     Engine.out_edge := fun n =>
       match n with
       | Classify => Engine.DirectEdge (Engine.Node AssessQuality)
       | AssessQuality => Engine.ConditionalEdge route_by_data_type routing_table
       | AnalyzePoints | AnalyzeLines | AnalyzePolygons | AnalyzeMixed =>
           Engine.DirectEdge (Engine.Node Visualize)
       | Visualize => Engine.DirectEdge (Engine.Node Recommend)
       | Recommend => Engine.DirectEdge (Engine.Node Report)
       | Report => Engine.DirectEdge Engine.TERMINAL
       end |}.

(** The fields [GeoJSONWorkflowState] declares. *)
Definition declared_fields : list string :=
  ["geojson_data"; "data_type"; "feature_count"; "quality_score"; "issues";
   "analysis"; "visualization_url"; "recommendations"; "report"].

(** The [initial_state] literal of [run_workflow_example]. *)
Definition initial_state (data : pyval) : pydict :=
  <["geojson_data" := data]>
  (<["data_type" := PNone]>
  (<["feature_count" := PInt 0]>
  (<["quality_score" := PFloat 0]>
  (<["issues" := PList []]>
  (<["analysis" := PStr ""]>
  (<["visualization_url" := PStr ""]>
  (<["recommendations" := PList []]>
  (<["report" := PStr ""]> ∅)))))))).

End Program.
End GeoJSON.

(** ** gradio/app.py *)

Module Gradio.

(** A content block of a reply of the reasoning backend. *)
Inductive block :=
  | TextBlock (text : string)
  | ToolUseBlock (id name : string) (input : pyval)
  | OtherBlock (type : string).

(** A [tool_result] entry reported back to the backend: its content is
    the list of converted parts, or [str(result)] when there is none, or
    the error text. *)
Record tool_result := {
  tool_use_id : string;
  result_content : list string + string;
  is_error : bool
}.

Inductive message :=
  | UserText (content : string)
  | AssistantText (content : string)
  | AssistantBlocks (content : list block)
  | UserToolResults (content : list tool_result).

Record ui_resource := {
  ui_uri : string;
  ui_title : string;
  ui_mimeType : string
}.

(** The two collaborators of [chat_with_agent]: the reply to the [n]-th
    inference request, given the messages sent, and the reply to the
    [n]-th tool call, given the tool and its input. *)
Record collaborators := {
  messages_create : nat -> list message -> result (list block);
  session_call_tool : nat -> string -> pyval -> result mcp_result
}.

(** The variables the agent loop updates, with the number of inference
    requests sent and of tool calls issued so far. *)
Record agent_state := {
  messages : list message;
  ui_resources : list ui_resource;
  response_text : string;
  inferences : nat;
  tool_calls : nat
}.

(** [extract_ui_resources] on one content part. *)
Definition extract_ui_resource (item : content_item) : list ui_resource :=
  match item_type item with
  | Some "resource" =>
      match item_resource item with
      | Some resource =>
          if String.prefix "ui://mapbox/" (res_uri resource)
          then
            let actual_url :=
              match res_text resource with
              | Some text => if String.eqb text "" then res_uri resource else text
              | None => res_uri resource
              end in
            [{| ui_uri := actual_url;
                ui_title := match res_title resource with
                            | Some t => t | None => "Map Preview" end;
                ui_mimeType := match res_mimeType resource with
                               | Some t => t | None => "text/html" end |}]
          else []
      | None => []
      end
  | _ => []
  end.

(** [extract_ui_resources] *)
Definition extract_ui_resources (content : list content_item) : list ui_resource :=
  concat (extract_ui_resource <$> content).

(** The conversion of one content part for the backend. *)
Definition convert_item (item : content_item) : result string :=
  match item_type item with
  | Some "text" =>
      match item_text item with
      | Some text => Ok text
      | None => Raise (AttributeError "object has no attribute 'text'")
      end
  | Some "resource" =>
      Ok ("Resource: " +:+ match item_resource item with
                           | Some resource => res_uri resource
                           | None => "unknown"
                           end)
  | _ => Ok (item_str item)
  end.

Fixpoint convert_items (content : list content_item) : result (list string) :=
  match content with
  | [] => Ok []
  | item :: rest =>
      match convert_item item with
      | Raise e => Raise e
      | Ok text =>
          match convert_items rest with
          | Raise e => Raise e
          | Ok texts => Ok (text :: texts)
          end
      end
  end.

(** The body of the loop over [tool_uses], for one requested tool: the
    resources found so far and the entry for the backend. *)
Definition execute_tool (c : collaborators) (n : nat) (id name : string) (input : pyval)
    (resources : list ui_resource) : list ui_resource * tool_result :=
  let failed (resources : list ui_resource) (e : exn) :=
    (resources,
     {| tool_use_id := id; result_content := inr ("Error: " +:+ str_exn e);
        is_error := true |}) in
  match session_call_tool c n name input with
  | Raise e => failed resources e
  | Ok result =>
      match res_content result with
      | Some (ContentList ((_ :: _) as content)) =>
          let resources := (resources ++ extract_ui_resources content)%list in
          match convert_items content with
          | Raise e => failed resources e
          | Ok [] =>
              (resources, {| tool_use_id := id; result_content := inr (res_str result);
                             is_error := false |})
          | Ok texts =>
              (resources, {| tool_use_id := id; result_content := inl texts;
                             is_error := false |})
          end
      | Some (ContentOther _ true) =>
          failed resources (TypeError "object is not iterable")
      | _ =>
          (resources, {| tool_use_id := id; result_content := inr (res_str result);
                         is_error := false |})
      end
  end.

(** The loop over [tool_uses]. *)
Fixpoint execute_tools (c : collaborators) (n : nat) (tool_uses : list block)
    (resources : list ui_resource) : list ui_resource * list tool_result :=
  match tool_uses with
  | ToolUseBlock id name input :: rest =>
      let '(resources, entry) := execute_tool c n id name input resources in
      let '(resources, entries) := execute_tools c (S n) rest resources in
      (resources, entry :: entries)
  | _ :: rest => execute_tools c n rest resources
  | [] => (resources, [])
  end.

Definition text_parts (content : list block) : list string :=
  omap (fun b => match b with TextBlock text => Some text | _ => None end) content.

Definition tool_uses (content : list block) : list block :=
  List.filter (fun b => match b with ToolUseBlock _ _ _ => true | _ => false end) content.

(** ["\n".join(parts)] *)
Fixpoint join_lines (parts : list string) : string :=
  match parts with
  | [] => EmptyString
  | [part] => part
  | part :: rest => part +:+ newline +:+ join_lines rest
  end.

(** The agent loop, [for iteration in range(rounds)], from the state
    [s]: an exception of the backend leaves the function. *)
Fixpoint agent_loop (c : collaborators) (rounds : nat) (s : agent_state) : result agent_state :=
  match rounds with
  | O => Ok s
  | S rounds' =>
      match messages_create c (inferences s) (messages s) with
      | Raise e => Raise e
      | Ok content =>
          let response_text := join_lines (text_parts content) in
          match tool_uses content with
          | [] =>
              Ok {| messages := messages s; ui_resources := ui_resources s;
                    response_text := response_text;
                    inferences := S (inferences s); tool_calls := tool_calls s |}
          | requested =>
              let '(resources, tool_results) :=
                execute_tools c (tool_calls s) requested (ui_resources s) in
              agent_loop c rounds'
                {| messages := (messages s ++ [AssistantBlocks content;
                                               UserToolResults tool_results])%list;
                   ui_resources := resources;
                   response_text := response_text;
                   inferences := S (inferences s);
                   tool_calls := (tool_calls s + List.length requested)%nat |}
          end
      end
  end.

(** The message list built from the chat history. *)
Definition history_messages (history : list (string * string)) : list message :=
  concat ((fun turn => [UserText turn.1; AssistantText turn.2]) <$> history).

(** The HTML that embeds the resources found. *)
Definition iframe_html (resources : list ui_resource) : string :=
  fold_left (fun html resource =>
      html +:+ newline +:+
      "<div style=" +:+ quoted "margin: 10px 0;" +:+ ">" +:+ newline +:+
      "    <h4>" +:+ ui_title resource +:+ "</h4>" +:+ newline +:+
      "    <iframe" +:+ newline +:+
      "        src=" +:+ quoted (ui_uri resource) +:+ newline +:+
      "        width=" +:+ quoted "100%" +:+ newline +:+
      "        height=" +:+ quoted "500px" +:+ newline +:+
      "        style=" +:+ quoted "border: 1px solid #ddd; border-radius: 4px;" +:+ newline +:+
      "        allow=" +:+ quoted "geolocation" +:+ newline +:+
      "    ></iframe>" +:+ newline +:+
      "</div>" +:+ newline)
    resources EmptyString.

(** The state in which [chat_with_agent] enters its agent loop. *)
Definition start (message : string) (history : list (string * string)) : agent_state :=
  {| messages := (history_messages history ++ [UserText message])%list;
     ui_resources := []; response_text := EmptyString;
     inferences := O; tool_calls := O |}.

(** [chat_with_agent], once the session is open and the tools are listed:
    the triple it returns. *)
Definition chat_with_agent (c : collaborators) (message : string)
    (history : list (string * string))
    : result (string * list (string * string) * string) :=
  match agent_loop c 3 (start message history) with
  | Raise e => Raise e
  | Ok s =>
      Ok (response_text s, (history ++ [(message, response_text s)])%list,
          iframe_html (ui_resources s))
  end.

(** A tool as the MCP session lists it. *)
Record mcp_tool := {
  mcp_name : string;
  mcp_description : option string;
  mcp_inputSchema : pyval
}.

(** [format_tool_for_anthropic] *)
Definition format_tool_for_anthropic (tool : mcp_tool) : pyval :=
  PDict [("name", PStr (mcp_name tool));
         ("description",
          PStr (match mcp_description tool with
                | Some text => text
                | None => EmptyString
                end));
         ("input_schema", mcp_inputSchema tool)].

(** The names [chat_with_agent] excludes from the tools it offers. *)
Definition excluded_names : list string := ["style_builder"; "mapbox_style_builder"].

(** [filtered_tools] of [chat_with_agent] *)
Definition filtered_tools (tools : list mcp_tool) : list mcp_tool :=
  List.filter
    (fun tool => negb (existsb (fun excluded => contains excluded (mcp_name tool))
                               excluded_names))
    tools.

(** [anthropic_tools] of [chat_with_agent] *)
Definition anthropic_tools (tools : list mcp_tool) : list pyval :=
  format_tool_for_anthropic <$> filtered_tools tools.

End Gradio.

(** * Observations *)

(** What the properties below say about states, worlds and replies. *)

Section StyleObservations.
Context {RT : PyRuntime}.
Import Style.

(** The reserved [error] field signals a failure when it is truthy, as
    [should_retry] tests it. *)
Definition error_set (st : pydict) : bool := truthy (get st "error" PNone).

(** The pass flag, as [should_retry] tests it. *)
Definition passed (st : pydict) : bool := truthy (get st "validation_passed" PNone).

(** The value of [iteration_count] when it is an integer; a state without
    the key counts as 0, the default the nodes and the router read. *)
Definition iteration_count_of (st : pydict) : option Z :=
  match get st "iteration_count" (PInt 0) with
  | PInt z => Some z
  | _ => None
  end.

(** One attempt of the retry cycle as the engine drives it: [create],
    then [validate]. *)
Definition attempt (st : pydict) (w : world) : pydict * world :=
  let '(st1, w1) := Engine.exec_node create_workflow Create st w in
  Engine.exec_node create_workflow Validate st1 w1.

(** The failure a reply of the tool provider amounts to for
    [call_tool]: the exception of a transport failure, or the
    [ValueError] made from a first content part flagged as an error. *)
Definition reported_failure (tool_name : string) (reply : result mcp_result) : option exn :=
  match reply with
  | Raise e => Some e
  | Ok r =>
      match res_content r with
      | Some (ContentList (item :: _)) =>
          match item_isError item with
          | Some true =>
              Some (ValueError ("Tool " +:+ tool_name +:+ " failed: " +:+
                                match item_text item with
                                | Some t => t
                                | None => "Unknown error"
                                end))
          | _ => None
          end
      | _ => None
      end
  end.

(** Some content part of the result, first or not, is flagged as an error. *)
Definition has_error_part (r : mcp_result) : bool :=
  match res_content r with
  | Some (ContentList parts) =>
      existsb (fun item => match item_isError item with Some b => b | None => false end) parts
  | _ => false
  end.

(** The world once one more tool call has been logged. *)
Definition logged (tool_name : string) (arguments : pyval) (w : world) : world :=
  {| llm_reply := llm_reply w; tool_reply := tool_reply w;
     llm_calls := llm_calls w; tool_log := (tool_name, arguments) :: tool_log w |}.

(** The world once the backend has been asked once more. *)
Definition asked (w : world) : world :=
  {| llm_reply := llm_reply w; tool_reply := tool_reply w;
     llm_calls := S (llm_calls w); tool_log := tool_log w |}.

(** The tool calls logged between two worlds, most recent first. *)
Definition new_calls (before after : world) : list (string * pyval) :=
  take (List.length (tool_log after) - List.length (tool_log before)) (tool_log after).

(** The arguments of the [style_builder_tool] call. *)
Definition builder_arguments (style_name base : string) : pyval :=
  PDict [("style_name", PStr style_name); ("base_style", PStr base); ("layers", PList [])].

(** The backend's recommendation with surrounding blanks and every
    [mapbox/] removed, as [create_style_node] cleans it. *)
Definition cleaned (content : string) : string :=
  py_replace "mapbox/" "" (py_strip content).

End StyleObservations.

Section GeoJSONObservations.

(** The domain the state schema declares for [data_type]. *)
Definition declared_domain : list string := ["points"; "lines"; "polygons"; "mixed"].

(** Every key of [st] is still a key of [st']. *)
Definition grows (st st' : pydict) : Prop :=
  forall k, is_Some (st !! k) -> is_Some (st' !! k).

(** The field [data_type] holds a value the router can look up. *)
Definition routable (st : pydict) : Prop :=
  py_hashable (get st "data_type" (PStr "mixed")) = true.

(** The bookkeeping of the checks: every check counted is either passed
    or reported as an issue. *)
Definition balanced (c : GeoJSON.checks) : Prop :=
  Z.of_nat (List.length (GeoJSON.issues c)) + GeoJSON.passed_checks c = GeoJSON.total_checks c /\
  0 <= GeoJSON.passed_checks c.

(** A character the URL pattern of [create_visualization_node] accepts
    after the host name. *)
Definition url_char (c : ascii) : bool := negb (is_space c || Ascii.eqb c ")"%char).

(** All the characters of a string satisfy [f]. *)
Fixpoint string_forall (f : ascii -> bool) (s : string) : bool :=
  match s with
  | EmptyString => true
  | String c s' => f c && string_forall f s'
  end.

End GeoJSONObservations.

Section GradioObservations.

(** The identifiers of the tool invocations a reply requests, in order. *)
Definition requested_ids (content : list Gradio.block) : list string :=
  omap (fun b => match b with
                 | Gradio.ToolUseBlock id _ _ => Some id
                 | _ => None
                 end) content.

(** The two messages one round trip appends: the reply and the results
    of the tools it requested. *)
Definition round_trip (trip : list Gradio.block * list Gradio.tool_result)
    : list Gradio.message :=
  [Gradio.AssistantBlocks trip.1; Gradio.UserToolResults trip.2].

End GradioObservations.

(** * Scenarios *)

(** Concrete collaborators, on which the programs above can be run. *)

(** The JSON documents the scenarios exchange. *)
Definition created_style_json : string :=
  "{" +:+ quoted "id" +:+ ": " +:+ quoted "user/style-1" +:+ "}".

Definition builder_markdown : string :=
  "Here is the style:" +:+ newline +:+
  "```json" +:+ newline +:+ "{}" +:+ newline +:+ "```".

(** A runtime whose [json.loads] knows the documents above and rejects
    any other text, and whose [str] prints integers and strings. *)
Definition table_runtime : PyRuntime :=
  {| json_loads := fun s =>
       if String.eqb s "{}" then Some (PDict [])
       else if String.eqb s created_style_json
            then Some (PDict [("id", PStr "user/style-1")])
            else None;
     json_dumps := fun _ => "{}";
     py_str := fun v => match v with
                        | PInt z => pretty z
                        | PStr s => s
                        | _ => "None"
                        end;
     py_percent := fun _ => "0.0%" |}.

Definition text_part (text : string) : content_item :=
  {| item_type := Some "text"; item_text := Some text; item_isError := None;
     item_resource := None; item_str := text |}.

Definition error_part (text : string) : content_item :=
  {| item_type := Some "text"; item_text := Some text; item_isError := Some true;
     item_resource := None; item_str := text |}.

Definition reply_of (parts : list content_item) : mcp_result :=
  {| res_content := Some (ContentList parts); res_str := "CallToolResult" |}.

Definition fresh_world (llm : nat -> result string) (tool : nat -> result mcp_result) : world :=
  {| llm_reply := llm; tool_reply := tool; llm_calls := O; tool_log := [] |}.

(** Validation fails twice and passes the third time: the backend's
    replies 2 and 4 are the first two verdicts, reply 6 the third; the
    provider answers the builder, creation and retrieval calls in turn. *)
Definition retry_world : world :=
  fresh_world
    (fun n => match n with
              | 0%nat => Ok "I recommend mapbox/light-v11 with stronger road colours."
              | 2%nat | 4%nat => Ok "FAIL: the roads lack contrast."
              | 6%nat => Ok "PASS: the style meets the requirements."
              | 7%nat => Ok "A light, high-contrast style for drivers."
              | _ => Ok " mapbox/light-v11 "
              end)
    (fun n => match (n mod 3)%nat with
              | 1%nat => Ok (reply_of [text_part builder_markdown])
              | 2%nat => Ok (reply_of [text_part created_style_json])
              | _ => Ok (reply_of [text_part "{}"])
              end).

(** Every tool call is answered by an error part. *)
Definition failing_tools_world : world :=
  fresh_world (fun _ => Ok "dark-v11")
              (fun _ => Ok (reply_of [error_part "quota exceeded"])).

(** The error part comes second in the result. *)
Definition late_error_world : world :=
  fresh_world (fun _ => Ok "dark-v11")
              (fun _ => Ok (reply_of [text_part "partial"; error_part "quota exceeded"])).

(** The [style_builder_tool] call is answered, and the [create_style_tool]
    call that follows it by an error part. *)
Definition creation_fails_world : world :=
  fresh_world (fun _ => Ok "dark-v11")
              (fun n => match n with
                        | O => Ok (reply_of [text_part builder_markdown])
                        | _ => Ok (reply_of [error_part "quota exceeded"])
                        end).

Definition creation_failure : exn :=
  ValueError "Tool create_style_tool failed: quota exceeded".

(** The provider succeeds with no content part, or with an empty text. *)
Definition empty_content_world : world :=
  fresh_world (fun _ => Ok "") (fun _ => Ok (reply_of [])).

Definition empty_text_world : world :=
  fresh_world (fun _ => Ok "") (fun _ => Ok (reply_of [text_part ""])).

(** A state in which the third attempt has just failed validation. *)
Definition exhausted_state : pydict :=
  <["iteration_count" := PInt 3]>
  (<["validation_passed" := PBool false]>
  (<["created_style_id" := PStr "user/style-1"]>
  (Style.initial_state "A light style for delivery drivers"))).

(** A feature collection with one point. *)
Definition one_restaurant : pyval :=
  PDict [("type", PStr "FeatureCollection");
         ("features",
          PList [PDict [("type", PStr "Feature");
                        ("properties", PDict [("name", PStr "Wierzynek")]);
                        ("geometry",
                         PDict [("type", PStr "Point");
                                ("coordinates",
                                 PList [PFloat (19937 # 1000); PFloat (500619 # 10000)])])]])].

(** A backend that asks for a tool in each of its replies, the first two
    of which also carry text, and a backend that answers at once with
    nothing; tools that return an empty list. *)
Definition insistent_backend : Gradio.collaborators :=
  {| Gradio.messages_create := fun n _ =>
       Ok (match n with
           | 0%nat => [Gradio.TextBlock "Let me list your styles.";
                       Gradio.ToolUseBlock "toolu_0" "list_styles_tool" (PDict [])]
           | 1%nat => [Gradio.TextBlock "Let me look again.";
                       Gradio.ToolUseBlock "toolu_1" "list_styles_tool" (PDict [])]
           | _ => [Gradio.ToolUseBlock "toolu_2" "list_styles_tool" (PDict [])]
           end);
     Gradio.session_call_tool := fun _ _ _ => Ok (reply_of [text_part "[]"]) |}.

Definition silent_backend : Gradio.collaborators :=
  {| Gradio.messages_create := fun _ _ => Ok [];
     Gradio.session_call_tool := fun _ _ _ => Ok (reply_of [text_part "[]"]) |}.

(** The insistent backend, cut off after its third reply. *)
Definition cut_off_backend : Gradio.collaborators :=
  {| Gradio.messages_create := fun n sent =>
       if (n <? 3)%nat then Gradio.messages_create insistent_backend n sent
       else Raise (ExternalError "overloaded");
     Gradio.session_call_tool := Gradio.session_call_tool insistent_backend |}.

(** The retry scenario, step by step. *)
Definition requirements : string := "A light style for delivery drivers".

(** The state and the world once [analyze] has run in [retry_world], and
    after each of the three attempts that follow. *)
Definition analyzed : pydict * world :=
  Engine.exec_node (Style.create_workflow (RT := table_runtime)) Style.Analyze
    (Style.initial_state requirements) retry_world.
Definition attempt1 : pydict * world := attempt (RT := table_runtime) analyzed.1 analyzed.2.
Definition attempt2 : pydict * world := attempt (RT := table_runtime) attempt1.1 attempt1.2.
Definition attempt3 : pydict * world := attempt (RT := table_runtime) attempt2.1 attempt2.2.

(** As [retry_world], except that the third [style_builder_tool] call,
    the provider's eighth, is answered by an error part: the third
    creation fails, and the third validation retrieves the style of the
    second attempt. *)
Definition stale_world : world :=
  fresh_world (llm_reply retry_world)
    (fun n => if Nat.eqb n 7
              then Ok (reply_of [error_part "quota exceeded"])
              else tool_reply retry_world n).

Definition stale_analyzed : pydict * world :=
  Engine.exec_node (Style.create_workflow (RT := table_runtime)) Style.Analyze
    (Style.initial_state requirements) stale_world.
Definition stale1 : pydict * world :=
  attempt (RT := table_runtime) stale_analyzed.1 stale_analyzed.2.
Definition stale2 : pydict * world := attempt (RT := table_runtime) stale1.1 stale1.2.
Definition stale3 : pydict * world := attempt (RT := table_runtime) stale2.1 stale2.2.

(** The first execution of [create] in [retry_world]. *)
Definition first_creation : result pydict * world :=
  Style.create_style_node (RT := table_runtime) analyzed.1 analyzed.2.

Definition is_ok {A} (r : result A) : bool :=
  match r with Ok _ => true | Raise _ => false end.

Definition value_or {A} (default : A) (r : result A) : A :=
  match r with Ok a => a | Raise _ => default end.

(** A state in which a creation has failed, and a state in which a style
    has been created. *)
Definition failed_state : pydict :=
  <["error" := PStr "Failed to create style: quota exceeded"]>
  (Style.initial_state requirements).

Definition created_state : pydict :=
  <["created_style_id" := PStr "user/style-1"]> (Style.initial_state requirements).

(** The backend turns the style down in words that contain "pass". *)
Definition wordy_world : world :=
  fresh_world (fun _ => Ok "FAIL: the style does not pass the contrast check")
              (fun _ => Ok (reply_of [text_part "{}"])).

(** The retrieval of the created style in [wordy_world]. *)
Definition retrieval : result pyval * world :=
  Style.call_tool (RT := table_runtime) "retrieve_style_tool"
    (PDict [("styleId", get created_state "created_style_id" PNone)]) wordy_world.

(** The validation of the failed state in [retry_world]. *)
Definition failed_validation : result pydict * world :=
  Style.validate_style_node (RT := table_runtime) failed_state retry_world.

(** A feature with the given geometry type. *)
Definition feature_of (geometry_type : string) : pyval :=
  PDict [("type", PStr "Feature");
         ("properties", PDict [("name", PStr "Wierzynek")]);
         ("geometry",
          PDict [("type", PStr geometry_type); ("coordinates", PList [])])].

(** A collection with a point and a multi-point. *)
Definition point_and_multipoint : pyval :=
  PDict [("type", PStr "FeatureCollection");
         ("features", PList [feature_of "Point"; feature_of "MultiPoint"])].

Definition classified (data : pyval) : result pydict * world :=
  GeoJSON.classify_data_node (GeoJSON.initial_state data) retry_world.

Definition assessed : result pydict * world :=
  GeoJSON.assess_quality_node (RT := table_runtime)
    (GeoJSON.initial_state one_restaurant) retry_world.

(** A reply with two list items among other lines. *)
Definition advice : string :=
  "Here is what I suggest:" +:+ newline +:+
  "1. Add a name to every feature" +:+ newline +:+
  "  - Cluster the points at low zoom" +:+ newline +:+
  "Good luck!".

Definition advice_world : world :=
  fresh_world (fun _ => Ok advice) (fun _ => Ok (reply_of [text_part "{}"])).

Definition recommended : result pydict * world :=
  GeoJSON.generate_recommendations_node (RT := table_runtime)
    (GeoJSON.initial_state one_restaurant) advice_world.

(** A tool result with a text part and a map preview. *)
Definition preview_part : content_item :=
  {| item_type := Some "resource"; item_text := None; item_isError := None;
     item_resource :=
       Some {| res_uri := "ui://mapbox/preview/1";
               res_text := Some "https://api.mapbox.com/styles/v1/user/style-1.html";
               res_title := None; res_mimeType := None |};
     item_str := "EmbeddedResource" |}.

Definition preview_resource : Gradio.ui_resource :=
  {| Gradio.ui_uri := "https://api.mapbox.com/styles/v1/user/style-1.html";
     Gradio.ui_title := "Map Preview"; Gradio.ui_mimeType := "text/html" |}.

(** * Properties *)

(** ** The engine's safety net *)

Section EngineProperties.
Context {node : Type} `{Finite node}.
Implicit Types (g : Engine.graph node) (visits : node -> nat).

Lemma sum_list_bump_notin ceiling visits n (l : list node) :
  n ∉ l ->
  sum_list ((fun m => ceiling - Engine.bump n visits m)%nat <$> l)
  = sum_list ((fun m => ceiling - visits m)%nat <$> l).
Proof.
  induction l as [|a l IH]; intros Hn; [done|].
  apply not_elem_of_cons in Hn as [Hna Hnl]. cbn.
  rewrite IH by done. unfold Engine.bump at 1.
  destruct (decide (a = n)); congruence.
Qed.

Lemma sum_list_bump_in ceiling visits n (l : list node) :
  NoDup l -> n ∈ l -> (visits n < ceiling)%nat ->
  (sum_list ((fun m => ceiling - Engine.bump n visits m)%nat <$> l) + 1
   = sum_list ((fun m => ceiling - visits m)%nat <$> l))%nat.
Proof.
  induction l as [|a l IH]; intros Hnd Hin Hlt.
  - by apply elem_of_nil in Hin.
  - apply NoDup_cons in Hnd as [Ha Hnd]. cbn.
    destruct (decide (a = n)) as [->|Hne].
    + rewrite sum_list_bump_notin by done.
      unfold Engine.bump. rewrite decide_True by done. lia.
    + apply elem_of_cons in Hin as [?|Hin]; [congruence|].
      specialize (IH Hnd Hin Hlt).
      unfold Engine.bump at 1. rewrite decide_False by done. lia.
Qed.

Lemma slack_bump ceiling visits n :
  (visits n < ceiling)%nat ->
  (Engine.slack ceiling (Engine.bump n visits) + 1 = Engine.slack ceiling visits)%nat.
Proof.
  intros. apply sum_list_bump_in; [apply NoDup_enum | apply elem_of_enum | done].
Qed.

Lemma slack_init ceiling :
  Engine.slack ceiling (fun _ : node => O) = (ceiling * card node)%nat.
Proof.
  unfold Engine.slack, card. induction (enum node) as [|a l IH]; cbn; [lia|].
  rewrite IH. lia.
Qed.

(** A run with more fuel than the ceiling leaves entries never stops for
    lack of fuel. *)
Lemma run_from_fuel_suffices fuel ceiling g visits current st w :
  (Engine.slack ceiling visits < fuel)%nat ->
  Engine.ends (Engine.run_from fuel ceiling g visits current st w).1.1.
Proof.
  revert visits current st w.
  induction fuel as [|fuel IH]; intros visits current st w Hlt; [lia|].
  cbn. destruct current as [n|]; [|done].
  destruct (decide (ceiling <= visits n)%nat) as [|Hn]; [done|].
  destruct (Engine.exec_node g n st w) as [st' w'].
  destruct (Engine.resolve g n st') as [next|key]; [|done].
  apply IH. pose proof (slack_bump ceiling visits n). lia.
Qed.

(** One turn of the loop of [run]. *)
Lemma run_from_step fuel ceiling g visits n st w st' w' next :
  (visits n < ceiling)%nat ->
  Engine.exec_node g n st w = (st', w') ->
  Engine.resolve g n st' = inl next ->
  Engine.run_from (S fuel) ceiling g visits (Engine.Node n) st w
  = Engine.run_from fuel ceiling g (Engine.bump n visits) next st' w'.
Proof.
  intros Hlt He Hr. cbn. rewrite decide_False by lia. by rewrite He, Hr.
Qed.

(** No node is ever entered more often than the ceiling allows. *)
Lemma run_from_visits_bounded fuel ceiling g visits current st w :
  (forall n, visits n <= ceiling)%nat ->
  forall n, ((Engine.run_from fuel ceiling g visits current st w).1.2 n <= ceiling)%nat.
Proof.
  revert visits current st w.
  induction fuel as [|fuel IH]; intros visits current st w Hb; [done|].
  cbn. destruct current as [n|]; [|done].
  destruct (decide (ceiling <= visits n)%nat) as [|Hn]; [done|].
  destruct (Engine.exec_node g n st w) as [st' w'].
  assert (forall m, (Engine.bump n visits m <= ceiling)%nat) as Hb'.
  { intros m. unfold Engine.bump. destruct (decide (m = n)) as [->|]; [lia|done]. }
  destruct (Engine.resolve g n st') as [next|key]; [|done].
  by apply IH.
Qed.

Lemma total_visits_bounded ceiling visits :
  (forall n, visits n <= ceiling)%nat ->
  (Engine.total_visits visits <= ceiling * card node)%nat.
Proof.
  intros Hb. unfold Engine.total_visits, card.
  induction (enum node) as [|a l IH]; cbn; [lia|].
  specialize (Hb a). lia.
Qed.

(** [run] always ends with a final state or an Engine-level error, having
    entered no node more than [ceiling] times. *)
Lemma run_bounded ceiling g st w :
  Engine.ends (Engine.run ceiling g st w).1.1 /\
  (forall n, ((Engine.run ceiling g st w).1.2 n <= ceiling)%nat) /\
  (Engine.total_visits (Engine.run ceiling g st w).1.2 <= ceiling * card node)%nat.
Proof.
  assert (forall n, ((Engine.run ceiling g st w).1.2 n <= ceiling)%nat) as Hb.
  { apply run_from_visits_bounded. intros; lia. }
  split; [|split; [done | by apply total_visits_bounded]].
  apply run_from_fuel_suffices. rewrite slack_init. lia.
Qed.

End EngineProperties.

(** ** Inversion of monadic computations *)

Section Inversion.
Lemma bind_Ok {A B} (m : M A) (k : A -> M B) w b w' :
  bind m k w = (Ok b, w') ->
  exists a w1, m w = (Ok a, w1) /\ k a w1 = (Ok b, w').
Proof.
  unfold bind. destruct (m w) as [[a|e] w1]; intros Hk; [eauto|discriminate].
Qed.

Lemma lift_Ok {A} (r : result A) w a w' :
  lift r w = (Ok a, w') -> r = Ok a /\ w' = w.
Proof. unfold lift. by intros [= -> ->]. Qed.

Lemma ret_Ok {A} (x : A) w a w' : ret x w = (Ok a, w') -> a = x /\ w' = w.
Proof. unfold ret. by intros [= -> ->]. Qed.

Lemma try_except_Ok {A} (body : M A) handler w a w' :
  try_except body handler w = (Ok a, w') ->
  body w = (Ok a, w') \/ exists e w1, body w = (Raise e, w1) /\ handler e w1 = (Ok a, w').
Proof.
  unfold try_except. destruct (body w) as [[x|e] w1]; intros Hk; [by left|].
  right; eauto.
Qed.



Lemma get_insert_ne (st : pydict) k k' v d : k <> k' -> get (<[k := v]> st) k' d = get st k' d.
Proof. intros. unfold get. by rewrite lookup_insert_ne. Qed.

Lemma get_insert_eq (st : pydict) k v d : get (<[k := v]> st) k d = v.
Proof. unfold get. by rewrite lookup_insert_eq. Qed.

End Inversion.

Ltac inv_bind H :=
  let a := fresh "a" in let w1 := fresh "w" in let H1 := fresh H in
  apply bind_Ok in H as (a & w1 & H1 & H).

(** ** The style workflow *)

Section StyleProperties.
Context {RT : PyRuntime}.
Import Style.

(** *** What each node writes *)

Lemma analyze_requirements_node_writes st w st' w' :
  analyze_requirements_node st w = (Ok st', w') ->
  exists existing analysis,
    st' = <["style_analysis" := analysis]> (<["existing_styles" := existing]> st).
Proof.
  unfold analyze_requirements_node. intros Hn.
  inv_bind Hn. inv_bind Hn. inv_bind Hn.
  apply ret_Ok in Hn as [-> _]. eauto.
Qed.

Lemma create_style_body_writes st style_name base it w st' w' :
  create_style_body st style_name base it w = (Ok st', w') ->
  exists created_id,
    st' = <["iteration_count" := it]> (<["created_style_id" := created_id]> st).
Proof.
  unfold create_style_body. intros Hn.
  inv_bind Hn. inv_bind Hn.
  destruct (match a0 with PDict _ => _ | _ => a0 end); try discriminate.
  destruct (search_json_block s); [|discriminate].
  destruct (json_loads s0); [|discriminate].
  inv_bind Hn. inv_bind Hn.
  apply ret_Ok in Hn as [-> _]. eauto.
Qed.

(** [create_style_node] either completes the creation, bumping the
    counter, or records the failure in [error] and leaves the rest of the
    state alone. *)
Lemma create_style_node_writes st w st' w' :
  create_style_node st w = (Ok st', w') ->
  exists it,
    py_succ (get st "iteration_count" (PInt 0)) = Ok it /\
    ((exists created_id,
        st' = <["iteration_count" := it]> (<["created_style_id" := created_id]> st)) \/
     (exists e, st' = <["error" := PStr ("Failed to create style: " +:+ str_exn e)]> st)).
Proof.
  unfold create_style_node. intros Hn.
  inv_bind Hn. inv_bind Hn. inv_bind Hn.
  apply lift_Ok in Hn2 as [Hit ->]. exists a1. split; [done|].
  apply try_except_Ok in Hn as [Hb|(e & w3 & _ & Hh)].
  - left. by eapply create_style_body_writes.
  - right. apply ret_Ok in Hh as [-> _]. eauto.
Qed.

(** [validate_style_node] never raises: whatever goes wrong inside is
    turned into a failed validation. *)
Lemma validate_style_node_total st w :
  exists st' w', validate_style_node st w = (Ok st', w').
Proof.
  unfold validate_style_node.
  destruct (negb _); [unfold ret; eauto|].
  unfold try_except.
  match goal with |- context [match ?b w with _ => _ end] => destruct (b w) as [[x|e] w1] end;
    unfold ret; eauto.
Qed.

Lemma validate_style_node_writes st w st' w' :
  validate_style_node st w = (Ok st', w') ->
  exists result flag,
    let st1 := <["validation_result" := result]> (<["validation_passed" := PBool flag]> st) in
    (st' = st1 \/ exists style_data, flag = true /\ st' = <["final_style" := style_data]> st1).
Proof.
  unfold validate_style_node. intros Hn.
  destruct (negb _).
  - apply ret_Ok in Hn as [-> _]. exists (PStr "No style created to validate"), false.
    by left.
  - apply try_except_Ok in Hn as [Hb|(e & w3 & _ & Hh)].
    + inv_bind Hb. inv_bind Hb. inv_bind Hb. inv_bind Hb. inv_bind Hb.
      apply ret_Ok in Hb as [-> _].
      exists (PStr a3), (contains "PASS" (py_upper a3)).
      destruct (contains "PASS" (py_upper a3)); simpl.
      * right.
        (* the write of [validation_passed] comes after that of
           [validation_result]; the two keys differ, so the order of the
           two inserts does not matter *)
        exists a0. split; [done|]. f_equal. by apply insert_insert_ne.
      * left. by apply insert_insert_ne.
    + apply ret_Ok in Hh as [-> _]. exists (PStr ("Validation error: " +:+ str_exn e)), false.
      by left.
Qed.

Lemma finalize_style_node_writes st w st' w' :
  finalize_style_node st w = (Ok st', w') -> st' = st.
Proof.
  unfold finalize_style_node. intros Hn.
  inv_bind Hn. inv_bind Hn. inv_bind Hn. inv_bind Hn.
  by apply ret_Ok in Hn as [-> _].
Qed.

(** *** The engine's view of the nodes *)

Lemma error_set_after_failure st e :
  error_set (<["error" := PStr (exn_class e +:+ ": " +:+ str_exn e)]> st) = true.
Proof. unfold error_set. rewrite get_insert_eq. by destruct e. Qed.

Lemma error_set_after_create_failure st e :
  error_set (<["error" := PStr ("Failed to create style: " +:+ str_exn e)]> st) = true.
Proof. unfold error_set. by rewrite get_insert_eq. Qed.

Ltac unfold_fields := unfold error_set, passed, iteration_count_of.
Ltac field_simpl :=
  unfold_fields; repeat (rewrite get_insert_ne by done); try rewrite get_insert_eq.

(** An execution of [create] that leaves no error behind started without
    one and completed the creation: the counter went up by one. *)
Lemma exec_create_no_error st w st' w' :
  Engine.exec_node create_workflow Create st w = (st', w') ->
  error_set st' = false ->
  error_set st = false /\
  forall k, iteration_count_of st = Some k -> iteration_count_of st' = Some (k + 1).
Proof.
  unfold Engine.exec_node; cbn [Engine.executor create_workflow create_workflow_with].
  destruct (create_style_node st w) as [[st1|e] w1] eqn:Hn; intros [= <- <-] Herr.
  - apply create_style_node_writes in Hn as (it & Hit & [[cid ->]|[e ->]]).
    + split; [by revert Herr; field_simpl|].
      intros k. field_simpl. revert Hit. unfold get.
      destruct (st !! "iteration_count") as [[]|]; cbn; try done.
      * by intros [= <-] [= ->].
      * by intros [= <-] [= ->].
    + by rewrite error_set_after_create_failure in Herr.
  - by rewrite error_set_after_failure in Herr.
Qed.

(** An execution of [validate] touches neither the error nor the counter. *)
Lemma exec_validate_keeps st w st' w' :
  Engine.exec_node create_workflow Validate st w = (st', w') ->
  error_set st' = error_set st /\ iteration_count_of st' = iteration_count_of st.
Proof.
  unfold Engine.exec_node; cbn [Engine.executor create_workflow create_workflow_with].
  destruct (validate_style_node_total st w) as (st1 & w1 & Hn). rewrite Hn.
  intros [= <- <-].
  apply validate_style_node_writes in Hn as (res & flag & [->|(sd & _ & ->)]);
    by field_simpl.
Qed.

(** An execution of [finalize] touches neither the counter nor the pass
    flag, even when the documentation request fails. *)
Lemma exec_finalize_keeps st w st' w' :
  Engine.exec_node create_workflow Finalize st w = (st', w') ->
  iteration_count_of st' = iteration_count_of st /\ passed st' = passed st.
Proof.
  unfold Engine.exec_node; cbn [Engine.executor create_workflow create_workflow_with].
  destruct (finalize_style_node st w) as [[st1|e] w1] eqn:Hn; intros [= <- <-].
  - by apply finalize_style_node_writes in Hn as ->.
  - by field_simpl.
Qed.

(** *** The retry router *)

Lemma should_retry_retry st k :
  error_set st = false -> passed st = false ->
  iteration_count_of st = Some k -> k < 3 ->
  should_retry st = Ok "retry".
Proof.
  unfold_fields. unfold should_retry. intros -> -> Hk Hlt.
  destruct (get st "iteration_count" (PInt 0)); try done.
  injection Hk as ->. cbn. by rewrite (proj2 (Z.leb_gt 3 k)).
Qed.

Lemma should_retry_finalize_passed st :
  error_set st = false -> passed st = true -> should_retry st = Ok "finalize".
Proof. unfold_fields. unfold should_retry. by intros -> ->. Qed.

Lemma should_retry_error st : error_set st = true -> should_retry st = Ok "error".
Proof. unfold_fields. unfold should_retry. by intros ->. Qed.

(** C2: in a state whose [error] is [None], whose [validation_passed] is
    [False] and whose [iteration_count] has reached the maximum of 3,
    [should_retry] returns the key [finalize], never [retry], and the
    routing table of [create_workflow] sends that key to the finishing
    node. *)
Theorem should_retry_forces_finalize (st : pydict) (n : Z) :
  st !! "error" = Some PNone ->
  st !! "validation_passed" = Some (PBool false) ->
  st !! "iteration_count" = Some (PInt n) ->
  3 <= n ->
  should_retry st = Ok "finalize" /\
  assoc "finalize" retry_table = Some (Engine.Node Finalize).
Proof.
  intros He Hp Hn Hle. split; [|done].
  unfold should_retry, get. rewrite He, Hp, Hn. cbn.
  by rewrite (proj2 (Z.leb_le 3 n)).
Qed.

(** C1: whatever the router of the conditional edge does, and whatever
    the initial state and the collaborators are, a run of the style
    workflow under the engine's hard visit ceiling comes to an end (with
    a final state or an Engine-level error), and no node, in particular
    none of the retry cycle create, validate, has been entered more often
    than the ceiling: at most four times the ceiling node visits in all. *)
Theorem style_run_within_hard_ceiling
    (ceiling : nat) (router : pydict -> result string) (st : pydict) (w : world) :
  Engine.ends (Engine.run ceiling (create_workflow_with router) st w).1.1 /\
  (forall n : node,
     ((Engine.run ceiling (create_workflow_with router) st w).1.2 n <= ceiling)%nat) /\
  (Engine.total_visits (Engine.run ceiling (create_workflow_with router) st w).1.2
   <= ceiling * 4)%nat.
Proof. exact (run_bounded ceiling (create_workflow_with router) st w). Qed.

(** C4: every node executor of the style workflow returns an
    [iteration_count] at least as large as the one it was given: the
    example's initial state sets it to 0, the producing node adds one when
    a creation completes, and no node resets or lowers it. *)
Theorem iteration_count_never_decreases
    (requirements : string) (nd : node) (st : pydict) (w : world)
    (st' : pydict) (w' : world) (n : Z) :
  Engine.executor create_workflow nd st w = (Ok st', w') ->
  iteration_count_of st = Some n ->
  iteration_count_of (initial_state requirements) = Some 0 /\
  exists n', iteration_count_of st' = Some n' /\ n <= n' /\
             (n' = n \/ (nd = Create /\ n' = n + 1)).
Proof.
  intros Hn Hic. split; [done|].
  destruct nd; cbn [Engine.executor create_workflow create_workflow_with] in Hn.
  - apply analyze_requirements_node_writes in Hn as (ex & an & ->).
    exists n. split; [|split; [lia|by left]]. by revert Hic; field_simpl.
  - apply create_style_node_writes in Hn as (it & Hit & [[cid ->]|[e ->]]).
    + exists (n + 1). split; [|split; [lia|by right]].
      revert Hic Hit. field_simpl.
      destruct (get st "iteration_count" (PInt 0)); cbn; try done.
      by intros [= ->] [= <-].
    + exists n. split; [|split; [lia|by left]]. by revert Hic; field_simpl.
  - apply validate_style_node_writes in Hn as (res & flag & [->|(sd & _ & ->)]);
      (exists n; split; [|split; [lia|by left]]); by revert Hic; field_simpl.
  - apply finalize_style_node_writes in Hn as ->. exists n. split; [done|split; [lia|by left]].
Qed.

(** *** The retry scenario *)

Lemma exec_analyze_keeps st w st' w' :
  Engine.exec_node create_workflow Analyze st w = (st', w') ->
  iteration_count_of st' = iteration_count_of st.
Proof.
  unfold Engine.exec_node; cbn [Engine.executor create_workflow create_workflow_with].
  destruct (analyze_requirements_node st w) as [[st1|e] w1] eqn:Hn; intros [= <- <-].
  - apply analyze_requirements_node_writes in Hn as (ex & an & ->). by field_simpl.
  - by field_simpl.
Qed.

(** An attempt that leaves no error behind started without one and raised
    the counter by one. *)
Lemma attempt_no_error st w st' w' k :
  attempt st w = (st', w') ->
  error_set st' = false ->
  iteration_count_of st = Some k ->
  error_set st = false /\ iteration_count_of st' = Some (k + 1).
Proof.
  unfold attempt.
  destruct (Engine.exec_node create_workflow Create st w) as [st1 w1] eqn:Hc.
  intros Hv Herr Hk.
  apply exec_validate_keeps in Hv as [He Hi]. rewrite He in Herr.
  destruct (exec_create_no_error _ _ _ _ Hc Herr) as [He0 Hstep].
  split; [done|]. rewrite Hi. by apply Hstep.
Qed.

(** An attempt keeps the counter an integer. *)
Lemma attempt_counter_typed st w st' w' k :
  attempt st w = (st', w') ->
  iteration_count_of st = Some k ->
  exists k', iteration_count_of st' = Some k'.
Proof.
  unfold attempt.
  destruct (Engine.exec_node create_workflow Create st w) as [st1 w1] eqn:Hc.
  intros Hv Hk. apply exec_validate_keeps in Hv as [_ ->].
  unfold Engine.exec_node in Hc;
    cbn [Engine.executor create_workflow create_workflow_with] in Hc.
  destruct (create_style_node st w) as [[c|e] x] eqn:Hn; injection Hc as <- <-.
  - apply create_style_node_writes in Hn as (it & Hit & [[cid ->]|[e ->]]).
    + revert Hk Hit. field_simpl.
      destruct (get st "iteration_count" (PInt 0)); cbn; try done.
      intros _ [= <-]. eauto.
    + exists k. by revert Hk; field_simpl.
  - exists k. by revert Hk; field_simpl.
Qed.

(** Two turns of the engine's loop make one attempt. *)
Lemma run_from_attempt fuel ceiling visits st w st' w' next :
  (visits Create < ceiling)%nat -> (visits Validate < ceiling)%nat ->
  attempt st w = (st', w') ->
  Engine.resolve create_workflow Validate st' = inl next ->
  Engine.run_from (S (S fuel)) ceiling create_workflow visits (Engine.Node Create) st w
  = Engine.run_from fuel ceiling create_workflow
      (Engine.bump Validate (Engine.bump Create visits)) next st' w'.
Proof.
  unfold attempt. intros Hc Hv.
  destruct (Engine.exec_node create_workflow Create st w) as [st1 w1] eqn:Hc1.
  intros Hv1 Hr.
  rewrite (run_from_step _ _ _ _ _ _ _ st1 w1 (Engine.Node Validate)); [|done..].
  by apply run_from_step.
Qed.

Lemma resolve_validate st key :
  should_retry st = Ok key ->
  Engine.resolve create_workflow Validate st
  = match assoc key retry_table with
    | Some t => inl t
    | None => inr (Ok key)
    end.
Proof.
  intros Hr. unfold Engine.resolve.
  cbn [Engine.out_edge create_workflow create_workflow_with]. by rewrite Hr.
Qed.

Ltac visits_lt :=
  unfold Engine.bump; cbn [Engine.entry create_workflow create_workflow_with];
  repeat case_decide; try done; lia.

(** C5, as the code has it: start from the example's initial state
    (counter 0) with the bound of 3 built into [should_retry], and let the
    attempts go as follows: the first two end with the pass flag false,
    the third with the pass flag true and with no failure recorded in
    [error].  Then the run ends in a final state whose [iteration_count]
    is 3 and whose pass flag is true, and [create] has been visited
    exactly 3 times.  The condition on [error] cannot be dropped: a third
    creation that fails leaves the counter at 2, and the validation that
    follows checks the style of the second attempt. *)
Theorem retry_scenario_third_attempt_passes
    (ceiling : nat) (requirements : string) (w0 : world)
    (s0 a1 a2 a3 : pydict) (w1 w2 w3 w4 : world) :
  (3 <= ceiling)%nat ->
  Engine.exec_node create_workflow Analyze (initial_state requirements) w0 = (s0, w1) ->
  attempt s0 w1 = (a1, w2) ->
  attempt a1 w2 = (a2, w3) ->
  attempt a2 w3 = (a3, w4) ->
  passed a1 = false ->
  passed a2 = false ->
  passed a3 = true ->
  error_set a3 = false ->
  exists final visits w',
    Engine.run ceiling create_workflow (initial_state requirements) w0
    = (Engine.Final final, visits, w') /\
    visits Create = 3%nat /\
    iteration_count_of final = Some 3 /\
    passed final = true.
Proof.
  intros Hc Han H1 H2 H3 Hp1 Hp2 Hp3 He3.
  pose proof (exec_analyze_keeps _ _ _ _ Han) as Hi0.
  change (iteration_count_of (initial_state requirements)) with (Some 0) in Hi0.
  (* the counter stays an integer; going backwards from the third
     attempt, no attempt started with an error and each one raised the
     counter by one *)
  destruct (attempt_counter_typed _ _ _ _ 0 H1 Hi0) as [k1 Hi1].
  destruct (attempt_counter_typed _ _ _ _ k1 H2 Hi1) as [k2 Hi2].
  destruct (attempt_no_error _ _ _ _ k2 H3 He3 Hi2) as [He2 Hi3].
  destruct (attempt_no_error _ _ _ _ k1 H2 He2 Hi1) as [He1 Hk2].
  destruct (attempt_no_error _ _ _ _ 0 H1 He1 Hi0) as [He0 Hk1].
  rewrite Hi1 in Hk1. injection Hk1 as ->.
  rewrite Hi2 in Hk2. injection Hk2 as ->.
  (* the three routing decisions *)
  assert (Engine.resolve create_workflow Validate a1 = inl (Engine.Node Create)) as R1.
  { rewrite (resolve_validate a1 "retry"); [done|].
    apply (should_retry_retry a1 (0 + 1)); [done..|lia]. }
  assert (Engine.resolve create_workflow Validate a2 = inl (Engine.Node Create)) as R2.
  { rewrite (resolve_validate a2 "retry"); [done|].
    apply (should_retry_retry a2 (0 + 1 + 1)); [done..|lia]. }
  assert (Engine.resolve create_workflow Validate a3 = inl (Engine.Node Finalize)) as R3.
  { rewrite (resolve_validate a3 "finalize"); [done|].
    by apply should_retry_finalize_passed. }
  destruct (Engine.exec_node create_workflow Finalize a3 w4) as [final w5] eqn:Hf.
  exists final. do 2 eexists.
  unfold Engine.run.
  replace (ceiling * card node + 1)%nat with (9 + (ceiling * 4 - 8))%nat
    by (change (card node) with 4%nat; lia).
  cbn [Nat.add].
  rewrite (run_from_step _ _ _ _ _ _ _ s0 w1 (Engine.Node Create)); [|visits_lt|done..].
  rewrite (run_from_attempt _ _ _ _ _ a1 w2 (Engine.Node Create)); [|visits_lt..|done|done].
  rewrite (run_from_attempt _ _ _ _ _ a2 w3 (Engine.Node Create)); [|visits_lt..|done|done].
  rewrite (run_from_attempt _ _ _ _ _ a3 w4 (Engine.Node Finalize)); [|visits_lt..|done|done].
  rewrite (run_from_step _ _ _ _ _ _ _ final w5 Engine.TERMINAL); [|visits_lt|done..].
  destruct (exec_finalize_keeps _ _ _ _ Hf) as [Hif Hpf].
  split; [reflexivity|]. split; [reflexivity|]. by rewrite Hif, Hpf.
Qed.

(** *** Tool failures *)

(** Both kinds of failure leave [call_tool] the same way, as a raised
    exception. *)
Lemma call_tool_reported_failure tool_name arguments w e :
  reported_failure tool_name (tool_reply w (List.length (tool_log w))) = Some e ->
  call_tool tool_name arguments w = (Raise e, logged tool_name arguments w).
Proof.
  unfold reported_failure, call_tool, bind, session_call_tool, logged.
  destruct (tool_reply w _) as [r|e']; [|by intros [= ->]].
  destruct (res_content r) as [[[|item parts]|]|]; try done.
  destruct (item_isError item) as [[]|]; try done.
  by intros [= <-].
Qed.

(** The steps the workflow takes once the [style_builder_tool] call of
    [create_style_node] has failed: the node returns with the failure in
    [error], [validate_style_node] returns with the error untouched, and
    [should_retry] answers [error]. *)
Lemma create_tool_failure_steps st w analysis it content e :
  st !! "style_analysis" = Some analysis ->
  py_succ (get st "iteration_count" (PInt 0)) = Ok it ->
  llm_reply w (llm_calls w) = Ok content ->
  reported_failure "style_builder_tool" (tool_reply w (List.length (tool_log w))) = Some e ->
  let recorded := PStr ("Failed to create style: " +:+ str_exn e) in
  exists w1 st2 w2,
    create_style_node st w = (Ok (<["error" := recorded]> st), w1) /\
    validate_style_node (<["error" := recorded]> st) w1 = (Ok st2, w2) /\
    st2 !! "error" = Some recorded /\
    should_retry st2 = Ok "error".
Proof.
  intros Ha Hit Hc Hrep recorded.
  assert (exists w1, create_style_node st w = (Ok (<["error" := recorded]> st), w1))
    as [w1 Hcreate].
  { unfold create_style_node, bind, lift, getitem, llm_ainvoke, try_except, ret.
    rewrite Ha, Hc, Hit. unfold create_style_body, bind.
    rewrite (call_tool_reported_failure _ _ _ e) by done. eauto. }
  destruct (validate_style_node_total (<["error" := recorded]> st) w1) as (st2 & w2 & Hval).
  assert (st2 !! "error" = Some recorded) as Herr.
  { pose proof Hval as Hw.
    apply validate_style_node_writes in Hw as (res & flag & [->|(sd & _ & ->)]);
      repeat (rewrite lookup_insert_ne by done); apply lookup_insert_eq. }
  exists w1, st2, w2. repeat split; try done.
  apply should_retry_error. unfold error_set, get. by rewrite Herr.
Qed.

(** The same, as a run of the engine from [create] on. *)
Lemma create_tool_failure_run fuel ceiling st w analysis it content e :
  st !! "style_analysis" = Some analysis ->
  py_succ (get st "iteration_count" (PInt 0)) = Ok it ->
  llm_reply w (llm_calls w) = Ok content ->
  reported_failure "style_builder_tool" (tool_reply w (List.length (tool_log w))) = Some e ->
  (3 <= fuel)%nat ->
  (1 <= ceiling)%nat ->
  exists final w',
    Engine.run_from fuel ceiling create_workflow (fun _ => O) (Engine.Node Create) st w
    = (Engine.Final final,
       Engine.bump Validate (Engine.bump Create (fun _ => O)), w') /\
    final !! "error" = Some (PStr ("Failed to create style: " +:+ str_exn e)).
Proof.
  intros Ha Hit Hc Hrep Hfuel Hceil.
  destruct (create_tool_failure_steps _ _ _ _ _ _ Ha Hit Hc Hrep)
    as (w1 & st2 & w2 & Hcreate & Hval & Herr & Hroute).
  set (st1 := <["error" := PStr ("Failed to create style: " +:+ str_exn e)]> st) in *.
  assert (Engine.exec_node create_workflow Create st w = (st1, w1)) as Hx1.
  { unfold Engine.exec_node; cbn [Engine.executor create_workflow create_workflow_with].
    by rewrite Hcreate. }
  assert (Engine.exec_node create_workflow Validate st1 w1 = (st2, w2)) as Hx2.
  { unfold Engine.exec_node; cbn [Engine.executor create_workflow create_workflow_with].
    by rewrite Hval. }
  assert (Engine.resolve create_workflow Validate st2 = inl Engine.TERMINAL) as Hr.
  { by rewrite (resolve_validate st2 "error"). }
  exists st2, w2. split; [|done].
  destruct fuel as [|[|[|fuel]]]; [lia..|].
  rewrite (run_from_step _ _ _ _ _ _ _ st1 w1 (Engine.Node Validate)); [|lia|done..].
  rewrite (run_from_step _ _ _ _ _ _ _ st2 w2 Engine.TERMINAL); [done|visits_lt|done..].
Qed.

(** [call_tool] logs its call and changes nothing else in the world. *)
Lemma call_tool_world tool_name arguments w :
  (call_tool tool_name arguments w).2 = logged tool_name arguments w.
Proof.
  unfold call_tool, bind, session_call_tool, logged.
  destruct (tool_reply w _) as [r|e]; [|done].
  destruct (res_content r) as [[[|item parts]|]|]; try done.
  cbn. destruct (item_isError item) as [[]|]; try done;
    destruct (item_text item) as [text|]; try done;
    destruct (negb _ || _); try done; by destruct (json_loads text).
Qed.

Lemma new_calls_app before after calls :
  tool_log after = (calls ++ tool_log before)%list -> new_calls before after = calls.
Proof.
  intros Hlog. unfold new_calls. rewrite Hlog, length_app.
  replace (List.length calls + List.length (tool_log before)
           - List.length (tool_log before))%nat with (List.length calls) by lia.
  by rewrite take_app_length.
Qed.

(** When a node has made one tool call and a call it made is answered
    by a failure, that one call is the failed one. *)
Lemma single_invocation_fails w w' i name args tool_name arguments e :
  tool_log w' = (name, args) :: tool_log w ->
  rev (new_calls w w') !! i = Some (tool_name, arguments) ->
  reported_failure tool_name (tool_reply w (List.length (tool_log w) + i)) = Some e ->
  call_tool name args w = (Raise e, logged name args w).
Proof.
  intros Hlog. rewrite (new_calls_app w w' [(name, args)]) by done.
  destruct i as [|i]; [|done]. intros [= <- <-] Hrep.
  apply call_tool_reported_failure. by rewrite Nat.add_0_r in Hrep.
Qed.

(** Whichever tool invocation of the [try] block of [create_style_node]
    is answered by a failure, the first or the second, the block raises
    that failure. *)
Lemma create_style_body_invocation_fails st style_name base it w i tool_name arguments e :
  rev (new_calls w (create_style_body st style_name base it w).2) !! i
  = Some (tool_name, arguments) ->
  reported_failure tool_name (tool_reply w (List.length (tool_log w) + i)) = Some e ->
  (create_style_body st style_name base it w).1 = Raise e.
Proof.
  unfold create_style_body. fold (builder_arguments style_name base).
  intros Hcall Hrep.
  pose proof (call_tool_world "style_builder_tool" (builder_arguments style_name base) w)
    as Hw1.
  pose proof (fun w' Hlog Hc =>
                single_invocation_fails w w' i "style_builder_tool"
                  (builder_arguments style_name base) tool_name arguments e Hlog Hc Hrep)
    as Hfirst.
  pose proof (call_tool_reported_failure "style_builder_tool"
                (builder_arguments style_name base) w e) as Hzero.
  unfold bind at 1 in Hcall. unfold bind at 1.
  destruct (call_tool "style_builder_tool" _ w) as [[r|e'] w1];
    cbn [snd] in Hw1; subst w1.
  2: { cbn [snd] in Hcall. apply Hfirst in Hcall; [|reflexivity]. by injection Hcall as ->. }
  unfold bind at 1 in Hcall. unfold bind at 1. unfold lift in *.
  destruct (py_get r "result" (PStr "")) as [rt|e'];
    [|cbn [snd] in Hcall; apply Hfirst in Hcall; [discriminate|reflexivity]].
  destruct (match rt with PDict _ => _ | _ => rt end);
    try (cbn [snd raise] in Hcall; apply Hfirst in Hcall; [discriminate|reflexivity]).
  destruct (search_json_block s);
    [|cbn [snd raise] in Hcall; apply Hfirst in Hcall; [discriminate|reflexivity]].
  destruct (json_loads s0) as [style_json|];
    [|cbn [snd raise] in Hcall; apply Hfirst in Hcall; [discriminate|reflexivity]].
  set (create_arguments := PDict [("name", PStr style_name); ("style", style_json)]) in *.
  set (w1 := logged "style_builder_tool" (builder_arguments style_name base) w) in *.
  pose proof (call_tool_world "create_style_tool" create_arguments w1) as Hw2.
  pose proof (call_tool_reported_failure "create_style_tool" create_arguments w1 e)
    as Hone.
  unfold bind at 1 in Hcall. unfold bind at 1.
  assert (forall w2 : world,
            tool_log w2 = ([("create_style_tool", create_arguments);
                            ("style_builder_tool", builder_arguments style_name base)]
                           ++ tool_log w)%list ->
            rev (new_calls w w2) !! i = Some (tool_name, arguments) ->
            i = 1%nat /\ tool_name = "create_style_tool") as Hsecond.
  { intros w2 Hlog. rewrite (new_calls_app _ _ _ Hlog).
    destruct i as [|[|i]]; [| |done].
    - intros [= <- <-]. rewrite Nat.add_0_r in Hrep. by discriminate (Hzero Hrep).
    - by intros [= <- <-]. }
  assert (i = 1%nat /\ tool_name = "create_style_tool") as [-> ->].
  { destruct (call_tool "create_style_tool" create_arguments w1) as [[r2|e2] w2];
      cbn [snd] in Hw2; subst w2.
    - unfold bind in Hcall.
      destruct (py_get r2 "id" (PStr "")); cbn [snd ret] in Hcall;
        apply Hsecond in Hcall; done.
    - cbn [snd] in Hcall. apply Hsecond in Hcall; done. }
  rewrite Hone; [done|].
  cbn [w1 logged tool_reply tool_log List.length].
  by replace (S (List.length (tool_log w))) with (List.length (tool_log w) + 1)%nat by lia.
Qed.

(** Once a failure is recorded, [validate_style_node] returns with it
    untouched and [should_retry] answers [error]. *)
Lemma recorded_failure_steps st w1 (text : string) :
  exists st2 w2,
    validate_style_node (<["error" := PStr ("Failed to create style: " +:+ text)]> st) w1
    = (Ok st2, w2) /\
    st2 !! "error" = Some (PStr ("Failed to create style: " +:+ text)) /\
    should_retry st2 = Ok "error".
Proof.
  set (recorded := PStr ("Failed to create style: " +:+ text)).
  destruct (validate_style_node_total (<["error" := recorded]> st) w1) as (st2 & w2 & Hval).
  assert (st2 !! "error" = Some recorded) as Herr.
  { pose proof Hval as Hw.
    apply validate_style_node_writes in Hw as (res & flag & [->|(sd & _ & ->)]);
      repeat (rewrite lookup_insert_ne by done); apply lookup_insert_eq. }
  exists st2, w2. repeat split; try done.
  apply should_retry_error. unfold error_set, get. by rewrite Herr.
Qed.

(** C3, as the code has it.  Take any tool invocation made by the
    producing node [create_style_node], the [style_builder_tool] call or
    the [create_style_tool] call, whose reply has its first content part
    flagged as an error, or is a transport failure.  Then [call_tool]
    raises on that reply, in both cases alike; [create_style_node] returns
    with [Failed to create style: ...] recorded in the [error] field;
    along the edge from [create], [validate_style_node] returns with the
    error untouched; and [should_retry] answers [error], the key the
    routing table sends to [END].  No exception leaves a node or the
    router on the way.  The two other nodes that call tools handle a
    failed call themselves and leave [error] as it was:
    [analyze_requirements_node] goes on with no existing styles, and
    [validate_style_node] reports a failed validation. *)
Theorem create_tool_failure_reaches_terminal
    (st : pydict) (w : world) (analysis it : pyval) (content : string)
    (i : nat) (tool_name : string) (arguments : pyval) (e : exn) :
  st !! "style_analysis" = Some analysis ->
  py_succ (get st "iteration_count" (PInt 0)) = Ok it ->
  llm_reply w (llm_calls w) = Ok content ->
  rev (new_calls w (create_style_node st w).2) !! i = Some (tool_name, arguments) ->
  reported_failure tool_name (tool_reply w (List.length (tool_log w) + i)) = Some e ->
  (forall w0 arguments0,
      tool_reply w0 (List.length (tool_log w0))
      = tool_reply w (List.length (tool_log w) + i) ->
      call_tool tool_name arguments0 w0 = (Raise e, logged tool_name arguments0 w0)) /\
  (exists w1 st2 w2,
      create_style_node st w
      = (Ok (<["error" := PStr ("Failed to create style: " +:+ str_exn e)]> st), w1) /\
      Engine.out_edge create_workflow Create = Engine.DirectEdge (Engine.Node Validate) /\
      validate_style_node
        (<["error" := PStr ("Failed to create style: " +:+ str_exn e)]> st) w1
      = (Ok st2, w2) /\
      st2 !! "error" = Some (PStr ("Failed to create style: " +:+ str_exn e)) /\
      Engine.out_edge create_workflow Validate
      = Engine.ConditionalEdge should_retry retry_table /\
      should_retry st2 = Ok "error" /\
      assoc "error" retry_table = Some Engine.TERMINAL) /\
  (forall st0 w0 requirements0 content0 e0,
      st0 !! "requirements" = Some requirements0 ->
      llm_reply w0 (llm_calls w0) = Ok content0 ->
      reported_failure "list_styles_tool" (tool_reply w0 (List.length (tool_log w0)))
      = Some e0 ->
      exists st' w',
        analyze_requirements_node st0 w0 = (Ok st', w') /\
        st' !! "existing_styles" = Some (PList []) /\
        st' !! "error" = st0 !! "error") /\
  (forall st0 w0 e0,
      truthy (get st0 "created_style_id" PNone) = true ->
      reported_failure "retrieve_style_tool" (tool_reply w0 (List.length (tool_log w0)))
      = Some e0 ->
      exists st' w',
        validate_style_node st0 w0 = (Ok st', w') /\
        st' !! "validation_passed" = Some (PBool false) /\
        st' !! "error" = st0 !! "error").
Proof.
  intros Ha Hit Hc Hcall Hrep. split; [|split; [|split]].
  - intros w0 arguments0 Hsame. apply call_tool_reported_failure. by rewrite Hsame.
  - assert (exists w1,
               create_style_node st w
               = (Ok (<["error" := PStr ("Failed to create style: " +:+ str_exn e)]> st), w1))
      as [w1 Hcreate].
    { revert Hcall.
      unfold create_style_node, bind, lift, getitem, llm_ainvoke, try_except, ret.
      rewrite Ha, Hc, Hit. fold (asked w).
      intros Hcall.
      pose proof (create_style_body_invocation_fails st
                    ("LangGraph Style v" +:+ py_str it) (choose_base_style content)
                    it (asked w) i tool_name arguments e) as Hbody.
      change (new_calls (asked w)) with (new_calls w) in Hbody.
      destruct (create_style_body st _ _ it (asked w)) as [[st1|e'] w1];
        cbn [fst snd] in *.
      - by discriminate (Hbody Hcall Hrep).
      - injection (Hbody Hcall Hrep) as ->. eauto. }
    destruct (recorded_failure_steps st w1 (str_exn e)) as (st2 & w2 & Hval & Herr & Hroute).
    exists w1, st2, w2. by repeat split.
  - intros st0 w0 requirements0 content0 e0 Hreq Hc0 Hrep0.
    unfold analyze_requirements_node, bind at 1, try_except, bind at 1.
    rewrite (call_tool_reported_failure _ _ _ e0) by done.
    unfold ret at 1, bind, lift, getitem.
    rewrite lookup_insert_ne by done. rewrite Hreq.
    unfold llm_ainvoke, logged; cbn [llm_reply llm_calls]. rewrite Hc0.
    unfold ret. do 2 eexists. split; [done|].
    split; [by rewrite lookup_insert_ne, lookup_insert_eq|by rewrite !lookup_insert_ne].
  - intros st0 w0 e0 Hid Hrep0.
    unfold validate_style_node. rewrite Hid. cbn [negb].
    unfold try_except, bind at 1, lift, getitem.
    unfold get in Hid. destruct (st0 !! "created_style_id") as [style_id|]; [|done].
    unfold bind at 1.
    rewrite (call_tool_reported_failure _ _ _ e0) by done.
    unfold ret. do 2 eexists. split; [done|].
    split; [by rewrite lookup_insert_ne, lookup_insert_eq|by rewrite !lookup_insert_ne].
Qed.

(** *** The base style handed to the style builder *)

Lemma call_tool_log tool_name arguments w :
  tool_log (call_tool tool_name arguments w).2 = (tool_name, arguments) :: tool_log w.
Proof.
  unfold call_tool, bind, session_call_tool.
  destruct (tool_reply w _) as [r|e]; [|done].
  destruct (res_content r) as [[[|item parts]|]|]; try done.
  cbn. destruct (item_isError item) as [[]|]; try done;
    destruct (item_text item) as [text|]; try done;
    destruct (negb _ || _); try done; by destruct (json_loads text).
Qed.

Lemma bind_snd {A B} (m : M A) (k : A -> M B) w :
  (bind m k w).2 = match m w with
                   | (Ok a, w1) => (k a w1).2
                   | (Raise _, w1) => w1
                   end.
Proof. unfold bind. by destruct (m w) as [[a|e] w1]. Qed.

Lemma bind_lift_snd {A B} (r : result A) (k : A -> M B) w :
  (bind (lift r) k w).2 = match r with
                          | Ok a => (k a w).2
                          | Raise _ => w
                          end.
Proof. unfold bind, lift. by destruct r. Qed.

Lemma bind_llm_snd {B} (k : string -> M B) w :
  (bind llm_ainvoke k w).2 = match llm_reply w (llm_calls w) with
                             | Ok content => (k content (asked w)).2
                             | Raise _ => asked w
                             end.
Proof. unfold bind, llm_ainvoke. by destruct (llm_reply w (llm_calls w)). Qed.

Lemma try_except_ret_snd {A} (body : M A) (h : exn -> A) w :
  (try_except body (fun e => ret (h e)) w).2 = (body w).2.
Proof. unfold try_except, ret. by destruct (body w) as [[a|e] w1]. Qed.

Lemma create_style_body_log st style_name base it w :
  tool_log (create_style_body st style_name base it w).2
  = ("style_builder_tool", builder_arguments style_name base) :: tool_log w \/
  exists style_json,
    tool_log (create_style_body st style_name base it w).2
    = ("create_style_tool", PDict [("name", PStr style_name); ("style", style_json)])
      :: ("style_builder_tool", builder_arguments style_name base) :: tool_log w.
Proof.
  unfold create_style_body. fold (builder_arguments style_name base).
  rewrite bind_snd.
  pose proof (call_tool_log "style_builder_tool" (builder_arguments style_name base) w)
    as Hlog.
  destruct (call_tool "style_builder_tool" _ w) as [[r|e] w1];
    cbn [snd] in Hlog; [|by left].
  rewrite bind_lift_snd.
  destruct (py_get r "result" (PStr "")) as [rt|e]; [|by left].
  destruct (match rt with PDict _ => _ | _ => rt end); try by left.
  destruct (search_json_block s); [|by left].
  destruct (json_loads s0) as [style_json|]; [|by left].
  right. exists style_json.
  rewrite bind_snd.
  pose proof (call_tool_log "create_style_tool"
                (PDict [("name", PStr style_name); ("style", style_json)]) w1) as Hlog2.
  destruct (call_tool "create_style_tool" _ w1) as [[r2|e] w2];
    cbn [snd] in Hlog2; [|by rewrite Hlog2, Hlog].
  rewrite bind_lift_snd.
  destruct (py_get r2 "id" (PStr "")); unfold ret; cbn [snd]; by rewrite Hlog2, Hlog.
Qed.

(** [create_style_node] issues no tool call, or the [style_builder_tool]
    call alone, or that call followed by the [create_style_tool] call. *)
Lemma create_style_node_log st w :
  tool_log (create_style_node st w).2 = tool_log w \/
  exists content style_name,
    llm_reply w (llm_calls w) = Ok content /\
    let builder_call :=
      ("style_builder_tool", builder_arguments style_name (choose_base_style content)) in
    (tool_log (create_style_node st w).2 = builder_call :: tool_log w \/
     exists create_call,
       create_call.1 = "create_style_tool" /\
       tool_log (create_style_node st w).2 = create_call :: builder_call :: tool_log w).
Proof.
  unfold create_style_node.
  rewrite bind_lift_snd. destruct (getitem st "style_analysis"); [|by left].
  rewrite bind_llm_snd. destruct (llm_reply w (llm_calls w)) as [content|]; [|by left].
  rewrite bind_lift_snd. destruct (py_succ _) as [it|]; [|by left].
  rewrite try_except_ret_snd.
  right. exists content, ("LangGraph Style v" +:+ py_str it). split; [done|].
  destruct (create_style_body_log st ("LangGraph Style v" +:+ py_str it)
              (choose_base_style content) it (asked w)) as [->|[sj ->]].
  - by left.
  - right. by eexists (_, _).
Qed.

Lemma choose_base_style_valid content :
  choose_base_style content ∈ valid_styles_values /\
  (choose_base_style content = cleaned content \/
   ((cleaned content ∉ valid_styles_values) /\ choose_base_style content = "streets-v12")).
Proof.
  unfold choose_base_style. fold (cleaned content).
  case_bool_decide as Hin.
  - split; [done|by left].
  - split; [|by right]. unfold valid_styles_values. set_solver.
Qed.

(** C10: every [style_builder_tool] call [create_style_node] issues
    carries as [base_style] one of the five valid identifiers: it is
    computed from the backend's reply, which is kept when, once cleaned,
    it is one of the five, and replaced by [streets-v12] otherwise. *)
Theorem base_style_argument_is_valid
    (st : pydict) (w : world) (tool_name : string) (arguments : pyval) :
  (tool_name, arguments) ∈ new_calls w (create_style_node st w).2 ->
  tool_name = "style_builder_tool" ->
  exists content b,
    llm_reply w (llm_calls w) = Ok content /\
    py_get arguments "base_style" PNone = Ok (PStr b) /\
    b ∈ valid_styles_values /\
    (b = cleaned content \/
     ((cleaned content ∉ valid_styles_values) /\ b = "streets-v12")).
Proof.
  intros Hin ->. unfold new_calls in Hin.
  destruct (create_style_node_log st w) as [Hlog|(content & sn & Hc & [Hlog|(cc & Hcc & Hlog)])];
    rewrite Hlog in Hin; cbn [List.length] in Hin.
  - rewrite Nat.sub_diag in Hin. by apply elem_of_nil in Hin.
  - replace (S (List.length (tool_log w)) - List.length (tool_log w))%nat
      with 1%nat in Hin by lia.
    apply list_elem_of_singleton in Hin. injection Hin as ->.
    exists content, (choose_base_style content).
    split; [done|]. split; [done|]. apply choose_base_style_valid.
  - replace (S (S (List.length (tool_log w))) - List.length (tool_log w))%nat
      with 2%nat in Hin by lia.
    cbn [take] in Hin.
    apply elem_of_cons in Hin as [Hin|Hin].
    + subst cc. cbn in Hcc. discriminate.
    + apply list_elem_of_singleton in Hin. injection Hin as ->.
      exists content, (choose_base_style content).
      split; [done|]. split; [done|]. apply choose_base_style_valid.
Qed.

End StyleProperties.

(** ** The GeoJSON workflow *)

Section GeoJSONProperties.
Context {RT : PyRuntime}.
Import GeoJSON.

(** *** The classification router *)

Lemma routing_get_in_table (v : pyval) :
  py_hashable v = true ->
  exists key target,
    routing_get v "analyze_mixed" = Ok key /\
    assoc key routing_table = Some (Engine.Node target) /\
    ((forall s, s ∈ declared_domain -> v <> PStr s) ->
     key = "analyze_mixed" /\ target = AnalyzeMixed).
Proof.
  intros Hh. unfold routing_get. rewrite Hh.
  assert (forall s, s ∈ declared_domain ->
            (forall s', s' ∈ declared_domain -> PStr s <> PStr s') -> False) as Hdom.
  { intros s Hs Hout. by apply (Hout s). }
  destruct v as [| | | |s| | |];
    try (exists "analyze_mixed", AnalyzeMixed; by repeat split).
  unfold routing, assoc.
  destruct (String.eqb_spec s "points") as [->|_].
  { exists "analyze_points", AnalyzePoints. split; [done|]. split; [reflexivity|].
    intros Hout. destruct (Hdom "points"); [set_solver|done]. }
  destruct (String.eqb_spec s "lines") as [->|_].
  { exists "analyze_lines", AnalyzeLines. split; [done|]. split; [reflexivity|].
    intros Hout. destruct (Hdom "lines"); [set_solver|done]. }
  destruct (String.eqb_spec s "polygons") as [->|_].
  { exists "analyze_polygons", AnalyzePolygons. split; [done|]. split; [reflexivity|].
    intros Hout. destruct (Hdom "polygons"); [set_solver|done]. }
  destruct (String.eqb_spec s "mixed") as [->|_];
    exists "analyze_mixed", AnalyzeMixed; by repeat split.
Qed.

(** C6, as the code has it: whatever hashable value the categorical field
    [data_type] holds (a label of the declared domain, any other label or
    scalar, [None], a hashable object), and when the field is absent,
    [route_by_data_type] returns a key of the routing table of
    [create_workflow], which leads to a node; every such value outside
    the declared domain, and the absent field, go to the default node
    [analyze_mixed].  The lookup [routing.get] hashes its key, so the
    values that cannot be hashed are left out. *)
Theorem route_by_data_type_total (st : pydict) :
  py_hashable (get st "data_type" (PStr "mixed")) = true ->
  exists key target,
    route_by_data_type st = Ok key /\
    assoc key routing_table = Some (Engine.Node target) /\
    ((forall s, s ∈ declared_domain -> st !! "data_type" <> Some (PStr s)) ->
     key = "analyze_mixed" /\ target = AnalyzeMixed).
Proof.
  intros Hh.
  destruct (routing_get_in_table _ Hh) as (key & target & Hr & Ht & Hout).
  exists key, target. split; [done|]. split; [done|].
  intros Hnot. unfold get in *.
  destruct (st !! "data_type") as [v|] eqn:Hv.
  - apply Hout. intros s Hs ->. by apply (Hnot s).
  - revert Hr. cbn. by intros [= <-]; revert Ht; cbn; intros [= <-].
Qed.

(** The engine resolves the conditional edge after [assess_quality] to
    one of the four analysis nodes. *)
Lemma resolve_assess_quality (st : pydict) :
  py_hashable (get st "data_type" (PStr "mixed")) = true ->
  exists target,
    target ∈ [AnalyzePoints; AnalyzeLines; AnalyzePolygons; AnalyzeMixed] /\
    Engine.resolve create_workflow AssessQuality st = inl (Engine.Node target).
Proof.
  intros Hh.
  destruct (routing_get_in_table _ Hh) as (key & target & Hr & Ht & _).
  exists target. split.
  - revert Ht. unfold routing_table, assoc.
    repeat (destruct (String.eqb key _); [intros [= <-]; set_solver|]). done.
  - unfold Engine.resolve; cbn [Engine.out_edge create_workflow].
    unfold route_by_data_type. by rewrite Hr, Ht.
Qed.

(** *** Declared fields *)

Lemma grows_refl st : grows st st.
Proof. by intros k. Qed.

Lemma grows_insert st st' k v : grows st st' -> grows st (<[k := v]> st').
Proof.
  intros Hg k' Hk. destruct (decide (k = k')) as [->|Hne].
  - rewrite lookup_insert_eq. eauto.
  - rewrite lookup_insert_ne by done. by apply Hg.
Qed.

Lemma routable_insert_ne st k v : k <> "data_type" -> routable st -> routable (<[k := v]> st).
Proof. intros Hk. unfold routable. by rewrite get_insert_ne. Qed.

Lemma routable_insert_str st s : routable (<["data_type" := PStr s]> st).
Proof. unfold routable. by rewrite get_insert_eq. Qed.

Ltac inv_binds H :=
  repeat (let a := fresh "a" in let w1 := fresh "w" in
          apply bind_Ok in H as (a & w1 & _ & H)).

Ltac keeps :=
  split; [repeat apply grows_insert; apply grows_refl
         |intros; repeat (apply routable_insert_ne; [done|]);
          first [done | apply routable_insert_str]].

(** No node executor removes a key, and [data_type] stays routable. *)
Lemma executor_keeps_fields n st w st' w' :
  Engine.executor create_workflow n st w = (Ok st', w') ->
  grows st st' /\ (routable st -> routable st').
Proof.
  destruct n; cbn [Engine.executor create_workflow]; intros Hn.
  - unfold classify_data_node in Hn. inv_binds Hn.
    apply ret_Ok in Hn as [-> _]. keeps.
  - unfold assess_quality_node in Hn. inv_binds Hn.
    apply ret_Ok in Hn as [-> _]. keeps.
  - unfold analyze_points_node, analyze_node in Hn. inv_binds Hn.
    apply ret_Ok in Hn as [-> _]. keeps.
  - unfold analyze_lines_node, analyze_node in Hn. inv_binds Hn.
    apply ret_Ok in Hn as [-> _]. keeps.
  - unfold analyze_polygons_node, analyze_node in Hn. inv_binds Hn.
    apply ret_Ok in Hn as [-> _]. keeps.
  - unfold analyze_mixed_node, analyze_node in Hn. inv_binds Hn.
    apply ret_Ok in Hn as [-> _]. keeps.
  - unfold create_visualization_node in Hn.
    apply try_except_Ok in Hn as [Hb|(e & w1 & _ & Hh)].
    + inv_binds Hb.
      destruct a1; try discriminate.
      destruct (contains _ _); [destruct (search_mapbox_url _)|];
        apply ret_Ok in Hb as [-> _]; keeps.
    + apply ret_Ok in Hh as [-> _]. keeps.
  - unfold generate_recommendations_node in Hn. inv_binds Hn.
    apply ret_Ok in Hn as [-> _]. keeps.
  - unfold generate_report_node in Hn. inv_binds Hn.
    apply ret_Ok in Hn as [-> _]. keeps.
Qed.

(** The same holds for a node as the engine executes it, which records
    an uncaught failure in [error]. *)
Lemma exec_node_keeps_fields n st w st' w' :
  Engine.exec_node create_workflow n st w = (st', w') ->
  grows st st' /\ (routable st -> routable st').
Proof.
  unfold Engine.exec_node.
  destruct (Engine.executor create_workflow n st w) as [[st1|e] w1] eqn:Hn;
    intros [= <- <-].
  - by eapply executor_keeps_fields.
  - keeps.
Qed.

Lemma initial_state_declares data k :
  k ∈ declared_fields -> is_Some (initial_state data !! k).
Proof.
  unfold declared_fields, initial_state. intros Hk.
  repeat (apply elem_of_cons in Hk as [->|Hk];
          [repeat (rewrite lookup_insert_ne by done); rewrite lookup_insert_eq; eauto|]).
  by apply elem_of_nil in Hk.
Qed.

Ltac geo_visits_lt :=
  unfold Engine.bump; cbn [Engine.entry create_workflow];
  repeat case_decide; try done; lia.

(** From an analysis node on, the run is a straight line to TERMINAL. *)
Lemma run_from_analysis fuel ceiling visits n st w :
  n ∈ [AnalyzePoints; AnalyzeLines; AnalyzePolygons; AnalyzeMixed] ->
  (1 <= ceiling)%nat ->
  (forall m, m ∈ [n; Visualize; Recommend; Report] -> visits m = O) ->
  exists final visits' w',
    Engine.run_from (5 + fuel) ceiling create_workflow visits (Engine.Node n) st w
    = (Engine.Final final, visits', w') /\ grows st final.
Proof.
  intros Hn Hc Hv.
  destruct (Engine.exec_node create_workflow n st w) as [s1 w1] eqn:H1.
  destruct (Engine.exec_node create_workflow Visualize s1 w1) as [s2 w2] eqn:H2.
  destruct (Engine.exec_node create_workflow Recommend s2 w2) as [s3 w3] eqn:H3.
  destruct (Engine.exec_node create_workflow Report s3 w3) as [s4 w4] eqn:H4.
  exists s4. do 2 eexists. cbn [Nat.add].
  assert (Engine.resolve create_workflow n s1 = inl (Engine.Node Visualize)
          /\ n <> Visualize /\ n <> Recommend /\ n <> Report) as (Hr & N1 & N2 & N3).
  { repeat (apply elem_of_cons in Hn as [->|Hn]; [done|]). by apply elem_of_nil in Hn. }
  assert (visits n = O) as V0 by (apply Hv; constructor).
  assert (visits Visualize = O) as V1 by (apply Hv; do 1 constructor; constructor).
  assert (visits Recommend = O) as V2 by (apply Hv; do 2 constructor; constructor).
  assert (visits Report = O) as V3 by (apply Hv; do 3 constructor; constructor).
  rewrite (run_from_step _ _ _ _ _ _ _ s1 w1 (Engine.Node Visualize)); [|lia|done..].
  rewrite (run_from_step _ _ _ _ _ _ _ s2 w2 (Engine.Node Recommend)); [|..|done|done].
  2:{ unfold Engine.bump. rewrite decide_False by done. lia. }
  rewrite (run_from_step _ _ _ _ _ _ _ s3 w3 (Engine.Node Report)); [|..|done|done].
  2:{ unfold Engine.bump. rewrite !decide_False by done. lia. }
  rewrite (run_from_step _ _ _ _ _ _ _ s4 w4 Engine.TERMINAL); [|..|done|done].
  2:{ unfold Engine.bump. rewrite !decide_False by done. lia. }
  split; [reflexivity|].
  apply exec_node_keeps_fields in H1 as [G1 _], H2 as [G2 _], H3 as [G3 _], H4 as [G4 _].
  intros k Hk. by apply G4, G3, G2, G1.
Qed.

(** C7: started from the initial state of [run_workflow_example], in
    which every declared field has its default value, the GeoJSON
    workflow runs to a final state, and every declared field is present
    in that final state, whatever the data and the collaborators are and
    whether or not a node has written the field. *)
Theorem declared_fields_never_absent
    (ceiling : nat) (data : pyval) (w : world) :
  (1 <= ceiling)%nat ->
  exists final visits w',
    Engine.run ceiling create_workflow (initial_state data) w
    = (Engine.Final final, visits, w') /\
    forall k, k ∈ declared_fields -> is_Some (final !! k).
Proof.
  intros Hc. unfold Engine.run.
  replace (ceiling * card node + 1)%nat with (2 + (5 + (ceiling * 9 - 6)))%nat
    by (change (card node) with 9%nat; lia).
  destruct (Engine.exec_node create_workflow Classify (initial_state data) w)
    as [s1 w1] eqn:H1.
  destruct (Engine.exec_node create_workflow AssessQuality s1 w1) as [s2 w2] eqn:H2.
  pose proof (exec_node_keeps_fields _ _ _ _ _ H1) as [G1 R1].
  pose proof (exec_node_keeps_fields _ _ _ _ _ H2) as [G2 R2].
  destruct (resolve_assess_quality s2) as (target & Hin & Hr).
  { by apply R2, R1. }
  cbn [Nat.add].
  rewrite (run_from_step _ _ _ _ _ _ _ s1 w1 (Engine.Node AssessQuality)); [|lia|done..].
  rewrite (run_from_step _ _ _ _ _ _ _ s2 w2 (Engine.Node target)); [|geo_visits_lt|done..].
  destruct (run_from_analysis (ceiling * 9 - 6) ceiling
              (Engine.bump AssessQuality (Engine.bump Classify (fun _ => O)))
              target s2 w2 Hin Hc) as (final & visits' & w' & Hrun & G3).
  { intros m Hm. unfold Engine.bump.
    repeat (apply elem_of_cons in Hin as [->|Hin];
            [repeat (apply elem_of_cons in Hm as [->|Hm]; [by rewrite !decide_False|]);
             by apply elem_of_nil in Hm|]).
    by apply elem_of_nil in Hin. }
  exists final, visits', w'. split; [done|].
  intros k Hk. by apply G3, G2, G1, initial_state_declares.
Qed.

End GeoJSONProperties.

(** ** The agent loop of the Gradio application *)

Section GradioProperties.
Import Gradio.

(** The loop sends at most [rounds] inference requests and appends at
    most two messages, the reply and the tool results, per request. *)
Lemma agent_loop_bounded c rounds s s' :
  agent_loop c rounds s = Ok s' ->
  (inferences s' <= inferences s + rounds)%nat /\
  (List.length (messages s') <= List.length (messages s) + 2 * rounds)%nat.
Proof.
  revert s. induction rounds as [|rounds IH]; intros s; cbn [agent_loop].
  - intros [= <-]. lia.
  - destruct (messages_create c (inferences s) (messages s)) as [content|e];
      [|discriminate].
    destruct (tool_uses content) as [|b requested].
    + intros [= <-]. cbn. lia.
    + destruct (execute_tools c (tool_calls s) (b :: requested) (ui_resources s))
        as [resources tool_results].
      intros Hloop. apply IH in Hloop as [Hi Hm]. cbn in Hi, Hm.
      rewrite length_app in Hm. cbn in Hm. lia.
Qed.

(** What the loop hands back as [response_text] is the text of the last
    reply it received, and of that reply only. *)
Lemma agent_loop_last_reply c rounds s s' :
  agent_loop c (S rounds) s = Ok s' ->
  (1 <= inferences s')%nat /\
  exists sent content,
    messages_create c (inferences s' - 1) sent = Ok content /\
    response_text s' = join_lines (text_parts content).
Proof.
  revert s. induction rounds as [|rounds IH]; intros s; cbn [agent_loop].
  - destruct (messages_create c (inferences s) (messages s)) as [content|e] eqn:Hc;
      [|discriminate].
    destruct (tool_uses content) as [|b requested].
    + intros [= <-]. cbn. split; [lia|]. exists (messages s), content.
      by rewrite Nat.sub_0_r.
    + destruct (execute_tools c (tool_calls s) (b :: requested) (ui_resources s))
        as [resources tool_results].
      intros [= <-]. cbn. split; [lia|]. exists (messages s), content.
      by rewrite Nat.sub_0_r.
  - destruct (messages_create c (inferences s) (messages s)) as [content|e] eqn:Hc;
      [|discriminate].
    destruct (tool_uses content) as [|b requested].
    + intros [= <-]. cbn. split; [lia|]. exists (messages s), content.
      by rewrite Nat.sub_0_r.
    + destruct (execute_tools c (tool_calls s) (b :: requested) (ui_resources s))
        as [resources tool_results].
      intros Hloop. by apply IH in Hloop.
Qed.

Lemma execute_tool_ext c c' n id name input resources :
  (forall n name input, session_call_tool c n name input = session_call_tool c' n name input) ->
  execute_tool c n id name input resources = execute_tool c' n id name input resources.
Proof. intros Ht. unfold execute_tool. by rewrite Ht. Qed.

Lemma execute_tools_ext c c' n requested resources :
  (forall n name input, session_call_tool c n name input = session_call_tool c' n name input) ->
  execute_tools c n requested resources = execute_tools c' n requested resources.
Proof.
  intros Ht. revert n resources.
  induction requested as [|b requested IH]; intros n resources; [done|].
  destruct b; cbn [execute_tools]; [done| |done].
  rewrite (execute_tool_ext c c') by done.
  destruct (execute_tool c' n id name input resources) as [resources' entry].
  by rewrite IH.
Qed.

(** Only the replies to the requests the loop can still send matter. *)
Lemma agent_loop_ext c c' rounds s :
  (forall n sent, (n < inferences s + rounds)%nat ->
                  messages_create c n sent = messages_create c' n sent) ->
  (forall n name input, session_call_tool c n name input = session_call_tool c' n name input) ->
  agent_loop c rounds s = agent_loop c' rounds s.
Proof.
  intros Hm Ht. revert s Hm.
  induction rounds as [|rounds IH]; intros s Hm; cbn [agent_loop]; [done|].
  rewrite <- (Hm (inferences s)) by lia.
  destruct (messages_create c (inferences s) (messages s)) as [content|e]; [|done].
  destruct (tool_uses content) as [|b requested]; [done|].
  rewrite (execute_tools_ext c c') by done.
  destruct (execute_tools c' (tool_calls s) (b :: requested) (ui_resources s))
    as [resources tool_results].
  apply IH. cbn. intros n sent Hn. apply Hm. lia.
Qed.

(** C8, as the code has it: whatever the reasoning backend and the tools
    do, the agent loop of [chat_with_agent] sends at most 3 inference
    requests: replies beyond the third are never asked for, so they cannot
    change what the function returns; at most 3 rounds of tool results are
    appended to the messages; and the text returned is the text of the
    last reply received, alone. *)
Theorem agent_loop_at_most_three_round_trips
    (c c' : collaborators) (message : string) (history : list (string * string)) :
  (forall n sent, (n < 3)%nat -> messages_create c n sent = messages_create c' n sent) ->
  (forall n name input, session_call_tool c n name input = session_call_tool c' n name input) ->
  chat_with_agent c message history = chat_with_agent c' message history /\
  forall s',
    agent_loop c 3 (start message history) = Ok s' ->
    (1 <= inferences s' <= 3)%nat /\
    (List.length (messages s') <= List.length (messages (start message history)) + 2 * 3)%nat /\
    exists sent content,
      messages_create c (inferences s' - 1) sent = Ok content /\
      response_text s' = join_lines (text_parts content).
Proof.
  intros Hm Ht. split.
  - unfold chat_with_agent. by rewrite (agent_loop_ext c c').
  - intros s' Hloop.
    destruct (agent_loop_bounded _ _ _ _ Hloop) as [Hi Hl].
    destruct (agent_loop_last_reply _ _ _ _ Hloop) as [H1 Hlast].
    cbn in Hi. split; [lia|]. by split.
Qed.

End GradioProperties.

(** * Further properties of the code *)

(** ** The style workflow *)

Section StyleCoverage.
Context {RT : PyRuntime}.
Import Style.

Ltac fields := unfold error_set, passed, iteration_count_of;
  repeat (rewrite get_insert_ne by done); try rewrite get_insert_eq.

Ltac style_visits_lt :=
  unfold Engine.bump; cbn [Engine.entry create_workflow create_workflow_with];
  repeat case_decide; try done; lia.

(** X1: every key [should_retry] returns is a key of the routing table
    [create_workflow] attaches to it, so the engine always finds a target
    for the conditional edge after [validate]. *)
Theorem should_retry_keys_declared (st : pydict) (key : string) :
  should_retry st = Ok key ->
  exists target,
    assoc key retry_table = Some target /\
    Engine.resolve create_workflow Validate st = inl target.
Proof.
  intros Hr. rewrite (resolve_validate st key Hr).
  revert Hr. unfold should_retry.
  destruct (truthy (get st "error" PNone)); [intros [= <-]; by eexists|].
  destruct (truthy (get st "validation_passed" PNone)); [intros [= <-]; by eexists|].
  destruct (py_ge_int _ 3) as [[]|]; [intros [= <-]; by eexists..|discriminate].
Qed.

(** X2: an error, once set, is never cleared: every node executor of the
    style workflow returns a state whose [error] is still set, and
    [should_retry] then answers [error] whatever the pass flag and the
    counter are. *)
Theorem error_is_sticky (nd : node) (st : pydict) (w : world) (st' : pydict) (w' : world) :
  Engine.executor create_workflow nd st w = (Ok st', w') ->
  error_set st = true ->
  error_set st' = true /\ should_retry st' = Ok "error".
Proof.
  intros Hn He.
  assert (error_set st' = true) as He'; [|split; [done|by apply should_retry_error]].
  destruct nd; cbn [Engine.executor create_workflow create_workflow_with] in Hn.
  - apply analyze_requirements_node_writes in Hn as (ex & an & ->). by revert He; fields.
  - apply create_style_node_writes in Hn as (it & Hit & [[cid ->]|[e ->]]).
    + by revert He; fields.
    + apply error_set_after_create_failure.
  - apply validate_style_node_writes in Hn as (res & flag & [->|(sd & _ & ->)]);
      by revert He; fields.
  - by apply finalize_style_node_writes in Hn as ->.
Qed.

(** X3: [validate_style_node] never raises, and it only ever writes
    [validation_result], [validation_passed] and [final_style]: the pass
    flag it leaves is a boolean, [final_style] is written only together
    with a true pass flag, and every other field keeps its value. *)
Theorem validate_style_node_frame (st : pydict) (w : world) :
  exists st' w' flag,
    validate_style_node st w = (Ok st', w') /\
    st' !! "validation_passed" = Some (PBool flag) /\
    (flag = false -> st' !! "final_style" = st !! "final_style") /\
    forall k, k <> "validation_result" -> k <> "validation_passed" ->
              k <> "final_style" -> st' !! k = st !! k.
Proof.
  destruct (validate_style_node_total st w) as (st' & w' & Hn).
  pose proof Hn as Hw.
  apply validate_style_node_writes in Hw as (res & flag & [->|(sd & -> & ->)]).
  - eexists _, w', flag. split; [done|]. split.
    { rewrite lookup_insert_ne by done. apply lookup_insert_eq. }
    split; intros; by rewrite !lookup_insert_ne.
  - eexists _, w', true. split; [done|]. split.
    { rewrite !lookup_insert_ne by done. apply lookup_insert_eq. }
    split; [done|]. intros. by rewrite !lookup_insert_ne.
Qed.

(** X4: [analyze_requirements_node] does not let a tool failure through:
    when [requirements] is present and the backend answers, the node
    returns with the reply in [style_analysis], and with an empty
    [existing_styles] when the [list_styles_tool] call failed or reported
    an error. *)
Theorem analyze_survives_tool_failure
    (st : pydict) (w : world) (requirements : pyval) (content : string) (e : exn) :
  st !! "requirements" = Some requirements ->
  llm_reply w (llm_calls w) = Ok content ->
  reported_failure "list_styles_tool" (tool_reply w (List.length (tool_log w))) = Some e ->
  exists w',
    analyze_requirements_node st w
    = (Ok (<["style_analysis" := PStr content]> (<["existing_styles" := PList []]> st)), w').
Proof.
  intros Hreq Hc Hrep.
  unfold analyze_requirements_node, bind at 1, try_except, bind at 1.
  rewrite (call_tool_reported_failure _ _ _ e) by done.
  unfold ret at 1, bind, lift, getitem.
  rewrite lookup_insert_ne by done. rewrite Hreq.
  unfold llm_ainvoke, logged; cbn [llm_reply llm_calls]. rewrite Hc.
  unfold ret. eauto.
Qed.

(** X17: [create_style_node] is all or nothing.  When it returns,
    either the creation went through, and then [created_style_id] and
    [iteration_count] are written together, the counter one above its
    former value, and [error] keeps its value; or something failed on the
    way, and then [error] alone is written, with a text that begins with
    "Failed to create style: ", while the counter and the style
    identifier keep theirs. *)
Theorem create_style_node_all_or_nothing
    (st : pydict) (w : world) (st' : pydict) (w' : world) :
  create_style_node st w = (Ok st', w') ->
  (exists created_id next,
      py_succ (get st "iteration_count" (PInt 0)) = Ok next /\
      st' = <["iteration_count" := next]> (<["created_style_id" := created_id]> st) /\
      st' !! "error" = st !! "error") \/
  (exists e,
      st' = <["error" := PStr ("Failed to create style: " +:+ str_exn e)]> st /\
      st' !! "iteration_count" = st !! "iteration_count" /\
      st' !! "created_style_id" = st !! "created_style_id").
Proof.
  intros Hn.
  apply create_style_node_writes in Hn as (it & Hit & [[cid ->]|[e ->]]).
  - left. exists cid, it. split; [done|]. split; [done|]. by rewrite !lookup_insert_ne.
  - right. exists e. split; [done|]. by rewrite !lookup_insert_ne.
Qed.

(** *** The verdict of the validation *)

Lemma prefix_app (s t : string) : String.prefix s (s +:+ t) = true.
Proof.
  induction s as [|c s IH].
  - cbn. by destruct t.
  - change (String c s +:+ t) with (String c (s +:+ t)).
    cbn [String.prefix]. destruct (ascii_dec c c); [exact IH|congruence].
Qed.

Lemma contains_unfold (sub s : string) :
  contains sub s
  = String.prefix sub s ||
    match s with
    | EmptyString => false
    | String _ s' => contains sub s'
    end.
Proof. by destruct s. Qed.

Lemma contains_here (sub s : string) : contains sub (sub +:+ s) = true.
Proof. by rewrite contains_unfold, prefix_app. Qed.

Lemma contains_app_r (sub a b : string) :
  contains sub b = true -> contains sub (a +:+ b) = true.
Proof.
  intros Hb. induction a as [|c a IH]; [done|].
  change (String c a +:+ b) with (String c (a +:+ b)).
  rewrite contains_unfold, IH. apply orb_true_r.
Qed.

Lemma py_upper_app (a b : string) : py_upper (a +:+ b) = py_upper a +:+ py_upper b.
Proof.
  induction a as [|c a IH]; [done|].
  change (String c a +:+ b) with (String c (a +:+ b)).
  cbn [py_upper]. by rewrite IH.
Qed.

(** X5: the verdict of [validate_style_node] is a substring test that
    ignores letter case: as soon as the backend's reply contains the
    letters of PASS, in any case and anywhere (inside a word, or in a
    reply that opens with FAIL), the node sets [validation_passed] to
    [True] and stores the retrieved style in [final_style]. *)
Theorem verdict_is_substring_test
    (st : pydict) (w w1 : world) (style_data : pyval) (a p b : string) :
  truthy (get st "created_style_id" PNone) = true ->
  is_Some (st !! "requirements") ->
  is_Some (st !! "style_analysis") ->
  call_tool "retrieve_style_tool"
    (PDict [("styleId", get st "created_style_id" PNone)]) w = (Ok style_data, w1) ->
  llm_reply w1 (llm_calls w1) = Ok (a +:+ p +:+ b) ->
  py_upper p = "PASS" ->
  exists w',
    validate_style_node st w
    = (Ok (<["final_style" := style_data]>
             (<["validation_passed" := PBool true]>
                (<["validation_result" := PStr (a +:+ p +:+ b)]> st))), w').
Proof.
  intros Hid [req Hreq] [an Han] Hcall Hllm Hp.
  unfold validate_style_node. rewrite Hid. cbn [negb].
  unfold try_except, bind at 1, lift at 1, getitem.
  unfold get in Hid, Hcall.
  destruct (st !! "created_style_id") as [sid|] eqn:Hsid; [|discriminate].
  unfold bind at 1. rewrite Hcall.
  unfold bind, lift, getitem, llm_ainvoke, ret. rewrite Hreq, Han, Hllm.
  assert (contains "PASS" (py_upper (a +:+ p +:+ b)) = true) as ->.
  { rewrite !py_upper_app, Hp. apply contains_app_r, contains_here. }
  eauto.
Qed.

(** *** Termination of the retry loop by the router alone *)

(** After an attempt, either an error is set or the counter went up. *)
Lemma attempt_outcome st w st' w' k :
  attempt st w = (st', w') ->
  iteration_count_of st = Some k ->
  error_set st' = true \/ iteration_count_of st' = Some (k + 1).
Proof.
  unfold attempt.
  destruct (Engine.exec_node create_workflow Create st w) as [st1 w1] eqn:Hc.
  intros Hv Hk. apply exec_validate_keeps in Hv as [-> ->].
  unfold Engine.exec_node in Hc;
    cbn [Engine.executor create_workflow create_workflow_with] in Hc.
  destruct (create_style_node st w) as [[c|e] x] eqn:Hn; injection Hc as <- <-.
  - apply create_style_node_writes in Hn as (it & Hit & [[cid ->]|[e ->]]).
    + right. revert Hk Hit. fields.
      destruct (get st "iteration_count" (PInt 0)); cbn; try done.
      by intros [= ->] [= <-].
    + left. apply error_set_after_create_failure.
  - left. apply error_set_after_failure.
Qed.

(** Where the router sends a state whose counter is an integer. *)
Lemma resolve_typed st k :
  iteration_count_of st = Some k ->
  Engine.resolve create_workflow Validate st = inl Engine.TERMINAL \/
  Engine.resolve create_workflow Validate st = inl (Engine.Node Finalize) \/
  (Engine.resolve create_workflow Validate st = inl (Engine.Node Create) /\ k < 3).
Proof.
  intros Hk.
  destruct (error_set st) eqn:He.
  { left. by rewrite (resolve_validate st "error" (should_retry_error st He)). }
  destruct (passed st) eqn:Hp.
  { right; left.
    by rewrite (resolve_validate st "finalize" (should_retry_finalize_passed st He Hp)). }
  destruct (decide (k < 3)) as [Hlt|Hge].
  - right; right. split; [|done].
    by rewrite (resolve_validate st "retry" (should_retry_retry st k He Hp Hk Hlt)).
  - right; left. rewrite (resolve_validate st "finalize"); [done|].
    revert He Hp Hk. unfold error_set, passed, iteration_count_of, should_retry.
    intros -> ->. destruct (get st "iteration_count" (PInt 0)); try done.
    intros [= ->]. cbn. by rewrite (proj2 (Z.leb_le 3 k)) by lia.
Qed.

Lemma run_from_terminal fuel ceiling visits st w :
  Engine.run_from (S fuel) ceiling create_workflow visits Engine.TERMINAL st w
  = (Engine.Final st, visits, w).
Proof. done. Qed.

Lemma run_from_finalize fuel ceiling visits st w :
  (visits Finalize < ceiling)%nat ->
  exists final w',
    Engine.run_from (S (S fuel)) ceiling create_workflow visits
      (Engine.Node Finalize) st w
    = (Engine.Final final, Engine.bump Finalize visits, w').
Proof.
  intros Hv.
  destruct (Engine.exec_node create_workflow Finalize st w) as [final w'] eqn:Hf.
  exists final, w'.
  by rewrite (run_from_step _ _ _ _ _ _ _ final w' Engine.TERMINAL).
Qed.

(** From [create] on, a state whose counter is [k] needs at most
    [max 1 (3 - k)] attempts. *)
Ltac bump_lia :=
  unfold Engine.bump; cbn [Nat.max] in *; repeat case_decide; try congruence; lia.

Lemma retry_loop_ends (m : nat) :
  forall fuel ceiling visits st w k,
    iteration_count_of st = Some k ->
    3 - k <= Z.of_nat m ->
    (visits Create + Nat.max 1 m <= ceiling)%nat ->
    (visits Validate + Nat.max 1 m <= ceiling)%nat ->
    (visits Finalize < ceiling)%nat ->
    (2 * Nat.max 1 m + 2 <= fuel)%nat ->
    exists final visits' w',
      Engine.run_from fuel ceiling create_workflow visits (Engine.Node Create) st w
      = (Engine.Final final, visits', w') /\
      (visits Create < visits' Create <= visits Create + Nat.max 1 m)%nat.
Proof.
  induction m as [|m IH]; intros fuel ceiling visits st w k Hk Hm Hvc Hvv Hvf Hfuel.
  - (* the counter has reached the bound: one last attempt *)
    destruct fuel as [|[|[|[|fuel]]]]; [cbn in Hfuel; lia..|].
    destruct (attempt st w) as [st' w'] eqn:Ha.
    assert (Engine.resolve create_workflow Validate st' = inl Engine.TERMINAL \/
            Engine.resolve create_workflow Validate st' = inl (Engine.Node Finalize))
      as [Hr|Hr].
    { destruct (attempt_outcome _ _ _ _ _ Ha Hk) as [He|Hk'].
      - left. by rewrite (resolve_validate st' "error" (should_retry_error st' He)).
      - destruct (resolve_typed _ _ Hk') as [?|[?|[_ ?]]]; [by left|by right|lia]. }
    + rewrite (run_from_attempt _ _ _ _ _ st' w' Engine.TERMINAL);
        [|cbn in Hvc, Hvv; lia..|done|done].
      do 3 eexists. split; [reflexivity|]. bump_lia.
    + rewrite (run_from_attempt _ _ _ _ _ st' w' (Engine.Node Finalize));
        [|cbn in Hvc, Hvv; lia..|done|done].
      destruct (run_from_finalize fuel ceiling
                  (Engine.bump Validate (Engine.bump Create visits)) st' w')
        as (final & w'' & ->).
      { bump_lia. }
      do 3 eexists. split; [reflexivity|]. bump_lia.
  - destruct fuel as [|[|[|[|fuel]]]]; [cbn in Hfuel; lia..|].
    destruct (attempt st w) as [st' w'] eqn:Ha.
    assert ((S m <= ceiling)%nat) as Hc by lia.
    assert (Engine.resolve create_workflow Validate st' = inl Engine.TERMINAL \/
            Engine.resolve create_workflow Validate st' = inl (Engine.Node Finalize) \/
            (Engine.resolve create_workflow Validate st' = inl (Engine.Node Create) /\
             iteration_count_of st' = Some (k + 1) /\ k + 1 < 3))
      as [Hr|[Hr|(Hr & Hk' & Hlt)]].
    { destruct (attempt_outcome _ _ _ _ _ Ha Hk) as [He|Hk'].
      - left. by rewrite (resolve_validate st' "error" (should_retry_error st' He)).
      - destruct (resolve_typed _ _ Hk') as [?|[?|[? ?]]]; eauto. }
    + rewrite (run_from_attempt _ _ _ _ _ st' w' Engine.TERMINAL);
        [|lia..|done|done].
      do 3 eexists. split; [reflexivity|]. bump_lia.
    + rewrite (run_from_attempt _ _ _ _ _ st' w' (Engine.Node Finalize));
        [|lia..|done|done].
      destruct (run_from_finalize fuel ceiling
                  (Engine.bump Validate (Engine.bump Create visits)) st' w')
        as (final & w'' & ->).
      { bump_lia. }
      do 3 eexists. split; [reflexivity|]. bump_lia.
    + rewrite (run_from_attempt _ _ _ _ _ st' w' (Engine.Node Create));
        [|lia..|done|done].
      assert (1 <= m)%nat as Hm1 by lia.
      destruct (IH (S (S fuel)) ceiling (Engine.bump Validate (Engine.bump Create visits))
                  st' w' (k + 1) Hk') as (final & visits' & w'' & Hrun & Hvis).
      * lia.
      * bump_lia.
      * bump_lia.
      * bump_lia.
      * lia.
      * exists final, visits', w''. split; [done|].
        revert Hvis. bump_lia.
Qed.

(** X6: the router alone ends the retry loop.  From any initial state
    whose [iteration_count] is a non-negative integer, and whatever the
    collaborators do, a run under a ceiling of at least 3 ends with a
    final state: never with a [LoopSafetyError] nor with a router
    failure, and [create] is visited at least once and at most 3 times. *)
Theorem retry_loop_terminates_by_router
    (ceiling : nat) (st : pydict) (w : world) (k : Z) :
  (3 <= ceiling)%nat ->
  iteration_count_of st = Some k ->
  0 <= k ->
  exists final visits w',
    Engine.run ceiling create_workflow st w = (Engine.Final final, visits, w') /\
    (1 <= visits Create <= 3)%nat.
Proof.
  intros Hc Hk H0. unfold Engine.run.
  replace (ceiling * card node + 1)%nat with (S (ceiling * 4))
    by (change (card node) with 4%nat; lia).
  destruct (Engine.exec_node create_workflow Analyze st w) as [s0 w0] eqn:Han.
  pose proof (exec_analyze_keeps _ _ _ _ Han) as Hi0. rewrite Hk in Hi0.
  rewrite (run_from_step _ _ _ _ _ _ _ s0 w0 (Engine.Node Create)); [|lia|done..].
  destruct (retry_loop_ends 3 (ceiling * 4) ceiling
              (Engine.bump (Engine.entry create_workflow) (fun _ => O)) s0 w0 k Hi0)
    as (final & visits' & w'' & Hrun & Hvis).
  - lia.
  - style_visits_lt.
  - style_visits_lt.
  - style_visits_lt.
  - cbn. lia.
  - exists final, visits', w''. split; [done|].
    revert Hvis. unfold Engine.bump; cbn [Engine.entry create_workflow create_workflow_with].
    rewrite decide_False by done. cbn. lia.
Qed.

End StyleCoverage.

(** ** The GeoJSON workflow *)

Section GeoJSONCoverage.
Context {RT : PyRuntime}.
Import GeoJSON.

Ltac inv_lift H x Hx :=
  let w1 := fresh "w" in let Hl := fresh "Hl" in
  apply bind_Ok in H as (x & w1 & Hl & H);
  apply lift_Ok in Hl as [Hx ->].

(** *** Classification *)

Lemma classify_in_domain (geometry_types : list pyval) :
  classify geometry_types ∈ declared_domain.
Proof.
  unfold classify, declared_domain.
  repeat (match goal with |- context [if ?b then _ else _] => destruct b end);
    set_solver.
Qed.

Lemma route_declared_label (st : pydict) (label : string) :
  label ∈ declared_domain ->
  route_by_data_type (<["data_type" := PStr label]> st) = Ok ("analyze_" +:+ label).
Proof.
  unfold route_by_data_type. rewrite get_insert_eq. unfold declared_domain.
  intros Hl. repeat (apply elem_of_cons in Hl as [->|Hl]; [done|]).
  by apply elem_of_nil in Hl.
Qed.

(** X7: when [classify_data_node] returns, without having consulted any
    collaborator, [data_type] is one of the four labels of the declared
    domain and [feature_count] is the number of features; the router then
    sends the state to the analysis node named after the label, which is
    a key of the routing table. *)
Theorem classify_then_route (st : pydict) (w : world) (st' : pydict) (w' : world) :
  classify_data_node st w = (Ok st', w') ->
  exists label count,
    w' = w /\
    st' !! "data_type" = Some (PStr label) /\
    label ∈ declared_domain /\
    st' !! "feature_count" = Some (PInt count) /\
    0 <= count /\
    route_by_data_type st' = Ok ("analyze_" +:+ label) /\
    is_Some (assoc ("analyze_" +:+ label) routing_table).
Proof.
  unfold classify_data_node. intros Hn.
  inv_lift Hn data Hdata. inv_lift Hn features Hfeat. inv_lift Hn n Hlen.
  inv_lift Hn items Hiter. inv_lift Hn types Htypes.
  apply ret_Ok in Hn as [-> ->].
  pose proof (classify_in_domain types) as Hdom.
  exists (classify types), n. split; [done|]. split; [apply lookup_insert_eq|].
  split; [done|]. split; [by rewrite lookup_insert_ne, lookup_insert_eq|].
  split.
  { destruct features; try discriminate; injection Hlen as <-; lia. }
  split; [by apply route_declared_label|].
  revert Hdom. generalize (classify types). unfold declared_domain. intros label Hl.
  repeat (apply elem_of_cons in Hl as [->|Hl]; [by eexists|]).
  by apply elem_of_nil in Hl.
Qed.

(** The geometry types collected never shrink, and the type of every
    feature that names it by a string is among them. *)
Lemma collect_keeps items : forall acc r x,
  collect_geometry_types items acc = Ok r -> x ∈ acc -> x ∈ r.
Proof.
  induction items as [|f items IH]; intros acc r x; cbn [collect_geometry_types].
  - by intros [= ->].
  - destruct (geometry_get f "type" (PStr "")) as [t|]; [|discriminate].
    destruct (py_hashable t); [|discriminate].
    intros Hr Hx. apply (IH _ _ _ Hr).
    destruct (existsb (py_eq t) acc); [done|]. apply elem_of_app. by left.
Qed.

Lemma py_eq_str (a : string) (x : pyval) : py_eq (PStr a) x = true -> x = PStr a.
Proof.
  destruct x as [| | | |s| | |]; try discriminate.
  unfold py_eq; cbn. by intros ->%String.eqb_eq.
Qed.

Lemma collect_has items : forall acc r f a,
  collect_geometry_types items acc = Ok r ->
  f ∈ items ->
  geometry_get f "type" (PStr "") = Ok (PStr a) ->
  PStr a ∈ r.
Proof.
  induction items as [|f0 items IH]; intros acc r f a; cbn [collect_geometry_types].
  - intros _ Hf. by apply elem_of_nil in Hf.
  - destruct (geometry_get f0 "type" (PStr "")) as [t|] eqn:Ht; [|discriminate].
    destruct (py_hashable t); [|discriminate].
    intros Hr Hf Hg. apply elem_of_cons in Hf as [->|Hf]; [|by eapply IH].
    rewrite Ht in Hg. injection Hg as ->.
    apply (collect_keeps _ _ _ _ Hr).
    destruct (existsb (py_eq (PStr a)) acc) eqn:Hex.
    + apply existsb_exists in Hex as (x & Hx & Heq).
      apply py_eq_str in Heq as ->. by apply list_elem_of_In.
    + apply elem_of_app. right. constructor.
Qed.

Lemma two_elements {A} (l : list A) (x y : A) :
  x ∈ l -> y ∈ l -> x <> y -> (1 < List.length l)%nat.
Proof.
  intros Hx Hy Hne.
  destruct l as [|a [|b l]]; cbn; [by apply elem_of_nil in Hx| |lia].
  apply list_elem_of_singleton in Hx, Hy. congruence.
Qed.

(** X8: a collection in which two features name different geometry
    types is classified as [mixed], whatever the two types are: a [Point]
    next to a [MultiPoint] is mixed data, not point data. *)
Theorem classify_two_types_mixed
    (st : pydict) (w : world) (st' : pydict) (w' : world)
    (data features : pyval) (items : list pyval) (f1 f2 : pyval) (a b : string) :
  classify_data_node st w = (Ok st', w') ->
  st !! "geojson_data" = Some data ->
  py_get data "features" (PList []) = Ok features ->
  py_iter features = Ok items ->
  f1 ∈ items ->
  f2 ∈ items ->
  geometry_get f1 "type" (PStr "") = Ok (PStr a) ->
  geometry_get f2 "type" (PStr "") = Ok (PStr b) ->
  a <> b ->
  st' !! "data_type" = Some (PStr "mixed").
Proof.
  unfold classify_data_node. intros Hn Hd Hf Hi H1 H2 Ha Hb Hne.
  inv_lift Hn data' Hdata. inv_lift Hn features' Hfeat. inv_lift Hn n Hlen.
  inv_lift Hn items' Hiter. inv_lift Hn types Htypes.
  apply ret_Ok in Hn as [-> _].
  unfold getitem in Hdata. rewrite Hd in Hdata. injection Hdata as <-.
  rewrite Hf in Hfeat. injection Hfeat as <-.
  rewrite Hi in Hiter. injection Hiter as <-.
  rewrite lookup_insert_eq. do 2 f_equal.
  assert (1 < List.length types)%nat as Hlen2.
  { apply (two_elements types (PStr a) (PStr b));
      [by apply (collect_has items [] types f1) | by apply (collect_has items [] types f2)
      |congruence]. }
  unfold classify. by rewrite (proj2 (Nat.ltb_lt _ _) Hlen2).
Qed.

(** *** Quality assessment *)

Lemma balanced_count_pass c : balanced c -> balanced (pass (count c)).
Proof. unfold balanced; cbn. lia. Qed.

Lemma balanced_count_issue c msg : balanced c -> balanced (issue msg (count c)).
Proof. unfold balanced; cbn. rewrite length_app; cbn. lia. Qed.

Lemma check_coordinates_outcome st i coords c c' :
  check_coordinates st i coords c = Ok c' -> c' = pass c \/ exists msg, c' = issue msg c.
Proof.
  unfold check_coordinates. intros H.
  repeat (match type of H with
          | context [match ?x with _ => _ end] => destruct x
          end; try discriminate);
    injection H as <-; first [by left | right; by eexists].
Qed.

Lemma check_features_balanced st items : forall i c c',
  check_features st i items c = Ok c' ->
  balanced c ->
  balanced c' /\ total_checks c' = total_checks c + Z.of_nat (List.length items).
Proof.
  induction items as [|f items IH]; intros i c c'; cbn [check_features].
  - intros [= <-] Hb. split; [done|]. cbn. lia.
  - destruct (geometry_get f "coordinates" (PList [])) as [coords|]; [|discriminate].
    intros Hr Hb.
    apply IH in Hr as [Hb' Ht].
    + split; [done|]. rewrite Ht.
      destruct (check_coordinates st i coords (count c)) as [c1|e] eqn:Hc.
      * apply check_coordinates_outcome in Hc as [->|[msg ->]]; cbn; lia.
      * cbn. lia.
    + destruct (check_coordinates st i coords (count c)) as [c1|e] eqn:Hc.
      * apply check_coordinates_outcome in Hc as [->|[msg ->]];
          [by apply balanced_count_pass|by apply balanced_count_issue].
      * by apply balanced_count_issue.
Qed.

(** X9: [assess_quality_node] consults no collaborator and keeps its
    books balanced: with [n] features it counts [n + 2] checks, every
    check is either passed or reported as exactly one issue, and the
    quality score it stores is the fraction of passed checks, between 0
    and 1. *)
Theorem assess_quality_balanced (st : pydict) (w : world) (st' : pydict) (w' : world) :
  assess_quality_node st w = (Ok st', w') ->
  exists (data features : pyval) (items : list pyval) (found : list string)
         (passed_n total : Z),
    w' = w /\
    st !! "geojson_data" = Some data /\
    py_get data "features" (PList []) = Ok features /\
    py_iter features = Ok items /\
    total = Z.of_nat (List.length items) + 2 /\
    0 <= passed_n <= total /\
    Z.of_nat (List.length found) + passed_n = total /\
    st' !! "issues" = Some (PList (PStr <$> found)) /\
    st' !! "quality_score" = Some (PFloat (inject_Z passed_n / inject_Z total)).
Proof.
  unfold assess_quality_node. intros Hn.
  inv_lift Hn data Hdata. inv_lift Hn features Hfeat. inv_lift Hn n Hlen.
  inv_lift Hn items Hiter. inv_lift Hn c1 Hchecks. inv_lift Hn complete Hprops.
  apply ret_Ok in Hn as [-> ->].
  set (c0 := if 0 <? n
             then pass (count {| issues := []; total_checks := 0; passed_checks := 0 |})
             else issue "No features in dataset"
                    (count {| issues := []; total_checks := 0; passed_checks := 0 |})) in *.
  assert (balanced c0 /\ total_checks c0 = 1) as [Hb0 Ht0].
  { subst c0. destruct (0 <? n); unfold balanced; cbn; lia. }
  apply check_features_balanced in Hchecks as [[Hb1 Hp1] Ht1]; [|done].
  set (c2 := if complete then pass (count c1)
             else issue "Some features have missing or empty properties" (count c1)) in *.
  assert (balanced c2 /\ total_checks c2 = total_checks c1 + 1) as [[Hb2 Hp2] Ht2].
  { subst c2. destruct complete;
      [split; [by apply balanced_count_pass|done]
      |split; [by apply balanced_count_issue|done]]. }
  exists data, features, items, (issues c2), (passed_checks c2), (total_checks c2).
  split; [done|]. split.
  { unfold getitem in Hdata. by destruct (st !! "geojson_data") as [d|]; [injection Hdata as ->|]. }
  split; [done|]. split; [done|]. split; [lia|]. split; [lia|]. split; [done|].
  split; [apply lookup_insert_eq|].
  rewrite lookup_insert_ne by done. rewrite lookup_insert_eq.
  by rewrite (proj2 (Z.ltb_lt 0 (total_checks c2))) by lia.
Qed.

(** X10: an empty dataset scores one half.  When the features are an
    empty list, or the data has no [features] at all, the emptiness
    check fails, the properties check passes for want of any feature,
    and the single issue reported is "No features in dataset". *)
Theorem assess_quality_empty (st : pydict) (w : world) (data : pyval) :
  st !! "geojson_data" = Some data ->
  py_get data "features" (PList []) = Ok (PList []) ->
  assess_quality_node st w
  = (Ok (<["issues" := PList [PStr "No features in dataset"]]>
           (<["quality_score" := PFloat (inject_Z 1 / inject_Z 2)]> st)), w).
Proof.
  intros Hd Hf. unfold assess_quality_node, bind, lift, getitem. by rewrite Hd, Hf.
Qed.

(** *** Visualization *)

Lemma take_while_forall f s : string_forall f (take_while f s) = true.
Proof.
  induction s as [|c s IH]; [done|]. cbn.
  destruct (f c) eqn:Hc; [|done]. cbn. by rewrite Hc, IH.
Qed.

Lemma search_mapbox_url_shape s url :
  search_mapbox_url s = Some url ->
  exists rest,
    url = "https://api.mapbox.com" +:+ rest /\
    rest <> EmptyString /\
    string_forall url_char rest = true.
Proof.
  induction s as [|c s IH]; cbn [search_mapbox_url].
  - discriminate.
  - destruct (String.prefix "https://api.mapbox.com" (String c s)); [|exact IH].
    pose proof (take_while_forall url_char
                  (string_drop (String.length "https://api.mapbox.com") (String c s)))
      as Hall.
    fold url_char.
    destruct (take_while url_char _) as [|c' rest] eqn:Htw; [exact IH|].
    intros [= <-]. exists (String c' rest). by repeat split.
Qed.

(** X11: [create_visualization_node] never raises and always leaves a
    text in [visualization_url], touching nothing else: a URL that starts
    with the Mapbox API host and goes on with at least one character,
    none of them a blank or a closing parenthesis; or the fixed text
    "Visualization created" when the tool's answer holds no such URL; or
    "Error: " followed by the failure. *)
Theorem create_visualization_node_total (st : pydict) (w : world) :
  exists url w',
    create_visualization_node st w = (Ok (<["visualization_url" := PStr url]> st), w') /\
    (url = "Visualization created" \/
     (exists rest, url = "https://api.mapbox.com" +:+ rest /\ rest <> EmptyString /\
                   string_forall url_char rest = true) \/
     (exists e, url = "Error: " +:+ str_exn e)).
Proof.
  unfold create_visualization_node, try_except.
  match goal with |- context [match ?b w with _ => _ end] =>
    destruct (b w) as [[st'|e] w1] eqn:Hb end.
  - apply bind_Ok in Hb as (data & w2 & _ & Hb).
    apply bind_Ok in Hb as (result & w3 & _ & Hb).
    apply bind_Ok in Hb as (result_text & w4 & _ & Hb).
    destruct result_text as [| | | |text| | |]; try discriminate.
    destruct (contains "https://api.mapbox.com" text).
    + destruct (search_mapbox_url text) as [url|] eqn:Hs;
        apply ret_Ok in Hb as [-> ->].
      * exists url, w4. split; [done|]. right; left.
        by apply search_mapbox_url_shape in Hs.
      * exists "Visualization created", w4. split; [done|]. by left.
    + apply ret_Ok in Hb as [-> ->].
      exists "Visualization created", w4. split; [done|]. by left.
  - exists ("Error: " +:+ str_exn e), w1. split; [done|]. right; right. by eexists.
Qed.

(** *** Recommendations *)

(** X12: every recommendation [generate_recommendations_node] keeps is a
    stripped line of the backend's reply that is not empty and begins
    with a digit or a dash; there are no more of them than lines in the
    reply, and no other field of the state changes. *)
Theorem recommendations_are_list_items
    (st : pydict) (w : world) (st' : pydict) (w' : world) :
  generate_recommendations_node st w = (Ok st', w') ->
  exists (content : string) (kept : list string),
    llm_reply w (llm_calls w) = Ok content /\
    st' = <["recommendations" := PList (PStr <$> kept)]> st /\
    (List.length kept <= List.length (split_lines content))%nat /\
    Forall (fun r => exists c r', r = String c r' /\
                                  (is_digit c = true \/ c = "-"%char)) kept.
Proof.
  unfold generate_recommendations_node. intros Hn.
  inv_lift Hn a1 H1. inv_lift Hn score H2. inv_lift Hn a3 H3.
  inv_lift Hn a4 H4. inv_lift Hn a5 H5.
  apply bind_Ok in Hn as (content & w1 & Hllm & Hn).
  apply ret_Ok in Hn as [-> _].
  unfold llm_ainvoke in Hllm. injection Hllm as Hllm _.
  exists content, (py_strip <$> List.filter is_recommendation (split_lines content)).
  split; [done|]. split; [done|]. split.
  - rewrite length_fmap. apply List.filter_length_le.
  - apply Forall_fmap, Forall_forall. intros line Hin.
    apply list_elem_of_In, filter_In in Hin as [_ Hrec].
    unfold is_recommendation in Hrec. cbn.
    destruct (py_strip line) as [|c r']; [discriminate|].
    exists c, r'. split; [done|].
    apply orb_true_iff in Hrec as [?|Heq]; [by left|right].
    by apply Ascii.eqb_eq in Heq.
Qed.

End GeoJSONCoverage.

(** ** The Gradio application *)

Section GradioCoverage.
Import Gradio.

(** *** Tool results *)

Lemma execute_tool_entry c n id name input resources :
  tool_use_id (execute_tool c n id name input resources).2 = id /\
  exists found, (execute_tool c n id name input resources).1 = (resources ++ found)%list.
Proof.
  unfold execute_tool.
  destruct (session_call_tool c n name input) as [result|e];
    [|split; [done|exists []; by rewrite app_nil_r]].
  destruct (res_content result) as [[[|item content]|repr []]|];
    try (split; [done|exists []; by rewrite app_nil_r]).
  destruct (convert_items (item :: content)) as [[|text texts]|e];
    (split; [done|by eexists]).
Qed.

(** X13: the loop over the requested tools answers every tool
    invocation exactly once, in the order of the requests and under the
    identifier of the request, whether the tool succeeded or failed, and
    skips the blocks that are not tool invocations; the UI resources
    found before are all kept. *)
Theorem execute_tools_answers_each_request
    (c : collaborators) (n : nat) (content : list block) (resources : list ui_resource) :
  tool_use_id <$> (execute_tools c n content resources).2 = requested_ids content /\
  exists found, (execute_tools c n content resources).1 = (resources ++ found)%list.
Proof.
  revert n resources.
  induction content as [|b content IH]; intros n resources; cbn [execute_tools].
  - split; [done|]. exists []. by rewrite app_nil_r.
  - destruct b as [text|id name input|type]; [apply IH| |apply IH].
    destruct (execute_tool_entry c n id name input resources) as [Hid [found Hres]].
    destruct (execute_tool c n id name input resources) as [resources1 entry].
    cbn [fst snd] in Hid, Hres. subst resources1.
    destruct (IH (S n) (resources ++ found)%list) as [Hids [found' Hres']].
    destruct (execute_tools c (S n) content (resources ++ found)%list)
      as [resources2 entries].
    cbn [fst snd] in Hids, Hres' |- *. split.
    + unfold requested_ids. cbn. fold (requested_ids content). by rewrite Hid, Hids.
    + exists (found ++ found')%list. by rewrite Hres', app_assoc.
Qed.

(** *** UI resources *)

(** X14: [extract_ui_resources] only yields what a resource part with a
    [ui://mapbox/] URI carries: the address it reports is the text of the
    resource whenever that text is present and not empty, and the URI
    itself whenever the text is missing or empty; the parts of any other
    type and the resources under any other scheme yield nothing. *)
Theorem extract_ui_resources_sound (content : list content_item) (r : ui_resource) :
  r ∈ extract_ui_resources content ->
  exists item res,
    item ∈ content /\
    item_type item = Some "resource" /\
    item_resource item = Some res /\
    String.prefix "ui://mapbox/" (res_uri res) = true /\
    (forall text, res_text res = Some text -> text <> "" -> ui_uri r = text) /\
    (res_text res = None \/ res_text res = Some "" -> ui_uri r = res_uri res).
Proof.
  unfold extract_ui_resources.
  induction content as [|item content IH]; cbn [fmap list_fmap concat].
  - intros Hr. by apply elem_of_nil in Hr.
  - intros Hr. apply elem_of_app in Hr as [Hr|Hr].
    + exists item. revert Hr. unfold extract_ui_resource.
      destruct (item_type item) as [type|] eqn:Ht;
        [|intros Hr; by apply elem_of_nil in Hr].
      destruct (String.eqb_spec type "resource") as [->|Hne].
      * destruct (item_resource item) as [res|];
          [|intros Hr; by apply elem_of_nil in Hr].
        destruct (String.prefix "ui://mapbox/" (res_uri res)) eqn:Hp;
          [|intros Hr; by apply elem_of_nil in Hr].
        intros Hr. apply list_elem_of_singleton in Hr as ->. cbn [ui_uri].
        exists res. split; [constructor|]. do 3 (split; [done|]).
        destruct (res_text res) as [text|].
        -- destruct (String.eqb_spec text "") as [Hempty|Hne].
           ++ split; [|done]. intros text' [= <-] Hne. by destruct Hne.
           ++ split; [by intros text' [= <-]|]. intros [Hn|[= Hn]]; [done|].
              by destruct Hne.
        -- split; [done|]. by intros _.
      * intros Hr. exfalso. revert Hr.
        repeat (match goal with
                | |- context [match ?x with _ => _ end] => destruct x
                end; try (intros Hr; by apply elem_of_nil in Hr)); congruence.
    + destruct (IH Hr) as (item' & res & Hin & H). exists item', res.
      split; [by constructor|done].
Qed.

(** *** The message history of the agent loop *)

Lemma requested_ids_tool_uses (content : list block) :
  requested_ids (tool_uses content) = requested_ids content.
Proof.
  unfold requested_ids, tool_uses.
  induction content as [|b content IH]; [done|].
  destruct b; cbn; by rewrite ?IH.
Qed.

(** X15: the agent loop only ever appends to the messages, one round
    trip at a time: a reply of the backend that requests tools, followed
    by one message with a result for each of the requested invocations,
    in order and under its identifier.  No more round trips are appended
    than the loop has rounds, and the UI resources found earlier are all
    kept. *)
Theorem agent_loop_appends_round_trips
    (c : collaborators) (rounds : nat) (s s' : agent_state) :
  agent_loop c rounds s = Ok s' ->
  exists trips : list (list block * list tool_result),
    messages s' = (messages s ++ concat (round_trip <$> trips))%list /\
    (List.length trips <= rounds)%nat /\
    Forall (fun trip => tool_use_id <$> trip.2 = requested_ids trip.1 /\
                        requested_ids trip.1 <> []) trips /\
    exists found, ui_resources s' = (ui_resources s ++ found)%list.
Proof.
  revert s. induction rounds as [|rounds IH]; intros s; cbn [agent_loop].
  - intros [= <-]. exists []. cbn. rewrite app_nil_r.
    repeat split; [lia|constructor|]. exists []. by rewrite app_nil_r.
  - destruct (messages_create c (inferences s) (messages s)) as [content|e];
      [|discriminate].
    destruct (tool_uses content) as [|b requested] eqn:Hu.
    + intros [= <-]. exists []. cbn. rewrite app_nil_r.
      repeat split; [lia|constructor|]. exists []. by rewrite app_nil_r.
    + pose proof (execute_tools_answers_each_request c (tool_calls s) (b :: requested)
                    (ui_resources s)) as [Hids [found Hres]].
      destruct (execute_tools c (tool_calls s) (b :: requested) (ui_resources s))
        as [resources tool_results].
      cbn [fst snd] in Hids, Hres. subst resources.
      intros Hloop. apply IH in Hloop as (trips & Hm & Hl & Hall & found' & Hr).
      cbn [messages ui_resources] in Hm, Hr.
      exists ((content, tool_results) :: trips). split.
      { rewrite Hm. cbn. by rewrite <- app_assoc. }
      split; [cbn; lia|]. split.
      { constructor; [|done]. cbn [fst snd].
        rewrite <- Hu, requested_ids_tool_uses in Hids. split; [done|].
        assert (exists id name input, b = ToolUseBlock id name input)
          as (id & name & input & ->).
        { assert (In b (tool_uses content)) as Hin by (rewrite Hu; by left).
          unfold tool_uses in Hin. apply filter_In in Hin as [_ Hb].
          destruct b; try discriminate. eauto. }
        by rewrite <- requested_ids_tool_uses, Hu. }
      exists (found ++ found')%list. by rewrite Hr, app_assoc.
Qed.

(** *** The tools offered to the backend *)

Lemma prefix_split (p s : string) :
  String.prefix p s = true -> exists r, s = p +:+ r.
Proof.
  revert s. induction p as [|c p IH]; intros s; [by exists s|].
  destruct s as [|c' s]; [discriminate|]. cbn.
  destruct (ascii_dec c c') as [->|]; [|discriminate].
  intros Hp. destruct (IH _ Hp) as [r ->]. by exists r.
Qed.

Lemma string_app_assoc (a b c : string) : (a +:+ b) +:+ c = a +:+ (b +:+ c).
Proof.
  induction a as [|x a IH]; [done|].
  change ((String x a +:+ b) +:+ c) with (String x ((a +:+ b) +:+ c)).
  by rewrite IH.
Qed.

Lemma contains_longer (a b s : string) :
  contains (a +:+ b) s = true -> contains b s = true.
Proof.
  induction s as [|c s IH]; rewrite (contains_unfold (a +:+ b)).
  - rewrite orb_false_r. intros Hp. apply prefix_split in Hp as [r Hr].
    rewrite Hr, string_app_assoc. apply contains_app_r, contains_here.
  - intros [Hp|Hc]%orb_true_iff.
    + apply prefix_split in Hp as [r Hr].
      rewrite Hr, string_app_assoc. apply contains_app_r, contains_here.
    + rewrite contains_unfold, (IH Hc). apply orb_true_r.
Qed.

(** X16: the tools [chat_with_agent] offers to the backend are, in the
    order the session lists them, exactly the tools whose name does not
    contain [style_builder], each under its own name; the second excluded
    name, [mapbox_style_builder], adds nothing to the first. *)
Theorem offered_tools_exclude_style_builder (tools : list mcp_tool) :
  (fun offered => py_get offered "name" PNone) <$> anthropic_tools tools
  = (fun tool => Ok (PStr (mcp_name tool)))
      <$> List.filter (fun tool => negb (contains "style_builder" (mcp_name tool))) tools.
Proof.
  unfold anthropic_tools, filtered_tools. rewrite <- list_fmap_compose.
  rewrite (List.filter_ext _ (fun tool => negb (contains "style_builder" (mcp_name tool)))).
  - by apply list_fmap_ext.
  - intros tool. unfold excluded_names. cbn [existsb]. rewrite orb_false_r. f_equal.
    destruct (contains "style_builder" (mcp_name tool)) eqn:H1; [done|]. cbn.
    destruct (contains "mapbox_style_builder" (mcp_name tool)) eqn:H2; [|done].
    apply (contains_longer "mapbox_" "style_builder") in H2. congruence.
Qed.

End GradioCoverage.

(** * The properties on the scenarios *)

Section Scenarios.
Import Style.

Lemma returned {A B} (p : result A * B) (default : A) :
  is_ok p.1 = true -> p = (Ok (value_or default p.1), p.2).
Proof. destruct p as [[a|e] b]; [done|discriminate]. Qed.

Lemma should_retry_forces_finalize_witness :
  should_retry exhausted_state = Ok "finalize" /\
  assoc "finalize" retry_table = Some (Engine.Node Finalize).
Proof.
  apply (should_retry_forces_finalize exhausted_state 3);
    [reflexivity | reflexivity | reflexivity | lia].
Defined.

Lemma iteration_count_never_decreases_witness :
  iteration_count_of (initial_state requirements) = Some 0 /\
  exists n',
    iteration_count_of (value_or ∅ first_creation.1) = Some n' /\
    0 <= n' /\ (n' = 0 \/ (Create = Create /\ n' = 0 + 1)).
Proof.
  apply (iteration_count_never_decreases (RT := table_runtime) requirements Create
           analyzed.1 analyzed.2 (value_or ∅ first_creation.1) first_creation.2 0).
  - apply (returned first_creation). vm_compute. reflexivity.
  - vm_compute. reflexivity.
Defined.

Lemma retry_scenario_third_attempt_passes_witness :
  exists final visits w',
    Engine.run 10 (create_workflow (RT := table_runtime))
      (initial_state requirements) retry_world
    = (Engine.Final final, visits, w') /\
    visits Create = 3%nat /\
    iteration_count_of final = Some 3 /\
    passed final = true.
Proof.
  apply (retry_scenario_third_attempt_passes (RT := table_runtime) 10 requirements
           retry_world analyzed.1 attempt1.1 attempt2.1 attempt3.1
           analyzed.2 attempt1.2 attempt2.2 attempt3.2);
    [lia | apply surjective_pairing .. | | | |]; vm_compute; reflexivity.
Defined.

(** C5, as the specification words it, fails on the code.  In
    [stale_world] the validation fails on attempts 1 and 2 and passes on
    attempt 3, but the third creation has failed: the style validated is
    the one of the second attempt, the run ends through the [error] edge,
    and the final state has the pass flag true with an [iteration_count]
    of 2 after 3 visits of [create]. *)
Lemma third_validation_may_pass_on_stale_style :
  iteration_count_of (initial_state requirements) = Some 0 /\
  passed stale1.1 = false /\
  passed stale2.1 = false /\
  passed stale3.1 = true /\
  match Engine.run 3 (create_workflow (RT := table_runtime))
          (initial_state requirements) stale_world with
  | (Engine.Final final, visits, _) =>
      visits Create = 3%nat /\
      iteration_count_of final = Some 2 /\
      passed final = true /\
      error_set final = true
  | _ => False
  end.
Proof. vm_compute. repeat split; reflexivity. Qed.

Lemma create_tool_failure_reaches_terminal_witness :
  (forall w0 arguments0,
      tool_reply w0 (List.length (tool_log w0))
      = tool_reply creation_fails_world (List.length (tool_log creation_fails_world) + 1) ->
      call_tool (RT := table_runtime) "create_style_tool" arguments0 w0
      = (Raise creation_failure, logged "create_style_tool" arguments0 w0)) /\
  (exists w1 st2 w2,
      create_style_node (RT := table_runtime) (initial_state requirements)
        creation_fails_world
      = (Ok (<["error" := PStr ("Failed to create style: " +:+ str_exn creation_failure)]>
               (initial_state requirements)), w1) /\
      Engine.out_edge (create_workflow (RT := table_runtime)) Create
      = Engine.DirectEdge (Engine.Node Validate) /\
      validate_style_node (RT := table_runtime)
        (<["error" := PStr ("Failed to create style: " +:+ str_exn creation_failure)]>
           (initial_state requirements)) w1
      = (Ok st2, w2) /\
      st2 !! "error"
      = Some (PStr ("Failed to create style: " +:+ str_exn creation_failure)) /\
      Engine.out_edge (create_workflow (RT := table_runtime)) Validate
      = Engine.ConditionalEdge should_retry retry_table /\
      should_retry st2 = Ok "error" /\
      assoc "error" retry_table = Some Engine.TERMINAL) /\
  (forall st0 w0 requirements0 content0 e0,
      st0 !! "requirements" = Some requirements0 ->
      llm_reply w0 (llm_calls w0) = Ok content0 ->
      reported_failure "list_styles_tool" (tool_reply w0 (List.length (tool_log w0)))
      = Some e0 ->
      exists st' w',
        analyze_requirements_node (RT := table_runtime) st0 w0 = (Ok st', w') /\
        st' !! "existing_styles" = Some (PList []) /\
        st' !! "error" = st0 !! "error") /\
  (forall st0 w0 e0,
      truthy (get st0 "created_style_id" PNone) = true ->
      reported_failure "retrieve_style_tool" (tool_reply w0 (List.length (tool_log w0)))
      = Some e0 ->
      exists st' w',
        validate_style_node (RT := table_runtime) st0 w0 = (Ok st', w') /\
        st' !! "validation_passed" = Some (PBool false) /\
        st' !! "error" = st0 !! "error").
Proof.
  apply (create_tool_failure_reaches_terminal (RT := table_runtime)
           (initial_state requirements) creation_fails_world
           (PStr "") (PInt 1) "dark-v11" 1 "create_style_tool"
           (PDict [("name", PStr "LangGraph Style v1"); ("style", PDict [])])
           creation_failure).
  - reflexivity.
  - reflexivity.
  - reflexivity.
  - vm_compute. reflexivity.
  - reflexivity.
Defined.

(** C3, as the specification words it, fails on the code.  An error
    part that is not the first part of the result goes unnoticed by
    [call_tool], which returns the first part's text; and a tool failure
    in a node other than [create] is not recorded in [error]:
    [analyze_requirements_node], whose [list_styles_tool] call is answered
    by an error part, returns a state with an empty [existing_styles] and
    an [error] that is still [None]; [validate_style_node], whose
    [retrieve_style_tool] call is answered by an error part, returns a
    state with a failed validation and an [error] that is still [None]. *)
Lemma tool_error_not_always_recorded :
  has_error_part (reply_of [text_part "partial"; error_part "quota exceeded"]) = true /\
  (call_tool (RT := table_runtime) "list_styles_tool" (PDict []) late_error_world).1
  = Ok (PDict [("result", PStr "partial")]) /\
  has_error_part (reply_of [error_part "quota exceeded"]) = true /\
  match (analyze_requirements_node (RT := table_runtime)
           (initial_state requirements) failing_tools_world).1 with
  | Ok st' =>
      st' !! "existing_styles" = Some (PList []) /\ st' !! "error" = Some PNone
  | Raise _ => False
  end /\
  match (validate_style_node (RT := table_runtime) created_state failing_tools_world).1 with
  | Ok st' =>
      st' !! "validation_passed" = Some (PBool false) /\
      st' !! "validation_result"
      = Some (PStr "Validation error: Tool retrieve_style_tool failed: quota exceeded") /\
      st' !! "error" = Some PNone
  | Raise _ => False
  end.
Proof. vm_compute. repeat split; reflexivity. Qed.

Lemma base_style_argument_is_valid_witness :
  exists content b,
    llm_reply analyzed.2 (llm_calls analyzed.2) = Ok content /\
    py_get (builder_arguments "LangGraph Style v1" "light-v11") "base_style" PNone
    = Ok (PStr b) /\
    b ∈ valid_styles_values /\
    (b = cleaned content \/
     ((cleaned content ∉ valid_styles_values) /\ b = "streets-v12")).
Proof.
  apply (base_style_argument_is_valid (RT := table_runtime) analyzed.1 analyzed.2
           "style_builder_tool" (builder_arguments "LangGraph Style v1" "light-v11"));
    [|reflexivity].
  vm_compute. do 1 constructor. constructor.
Defined.

Lemma route_by_data_type_total_witness :
  exists key target,
    GeoJSON.route_by_data_type
      (<["data_type" := PStr "hexagons"]> (GeoJSON.initial_state one_restaurant)) = Ok key /\
    assoc key GeoJSON.routing_table = Some (Engine.Node target) /\
    ((forall s, s ∈ declared_domain ->
        <["data_type" := PStr "hexagons"]> (GeoJSON.initial_state one_restaurant)
          !! "data_type" <> Some (PStr s)) ->
     key = "analyze_mixed" /\ target = GeoJSON.AnalyzeMixed).
Proof.
  apply (route_by_data_type_total
           (<["data_type" := PStr "hexagons"]> (GeoJSON.initial_state one_restaurant))).
  reflexivity.
Defined.

(** C6, as the specification words it, fails on the code: a [data_type]
    that cannot be hashed (a list, a dict, a set) makes the lookup in the
    routing table raise [TypeError] instead of falling back to
    [analyze_mixed]. *)
Lemma unhashable_data_type_raises :
  GeoJSON.route_by_data_type
    (<["data_type" := PList [PStr "points"]]> (GeoJSON.initial_state one_restaurant))
  = Raise (TypeError "unhashable type") /\
  GeoJSON.route_by_data_type
    (<["data_type" := PDict [("kind", PStr "points")]]> (GeoJSON.initial_state one_restaurant))
  = Raise (TypeError "unhashable type") /\
  GeoJSON.route_by_data_type
    (<["data_type" := PObj "{'points'}" false]> (GeoJSON.initial_state one_restaurant))
  = Raise (TypeError "unhashable type").
Proof. repeat split; reflexivity. Qed.

Lemma declared_fields_never_absent_witness :
  exists final visits w',
    Engine.run 1 (GeoJSON.create_workflow (RT := table_runtime))
      (GeoJSON.initial_state one_restaurant) retry_world
    = (Engine.Final final, visits, w') /\
    forall k, k ∈ GeoJSON.declared_fields -> is_Some (final !! k).
Proof.
  apply (declared_fields_never_absent (RT := table_runtime) 1 one_restaurant retry_world).
  lia.
Defined.

(** C9 fails on the adapter of the GeoJSON workflow: a result without
    content parts comes back as the text of an empty list, and a part
    with an empty text as an empty string, with nothing to tell them from
    a regular answer; the adapter of the style workflow raises a
    [ValueError] in both cases. *)
Lemma geojson_call_tool_returns_empty_results :
  (GeoJSON.call_tool "geojson_preview_tool" (PDict []) empty_content_world).1
  = Ok (PDict [("text", PStr "[]")]) /\
  (GeoJSON.call_tool "geojson_preview_tool" (PDict []) empty_text_world).1
  = Ok (PDict [("text", PStr "")]) /\
  (Style.call_tool (RT := table_runtime) "geojson_preview_tool" (PDict [])
     empty_content_world).1
  = Raise (ValueError "Tool geojson_preview_tool returned empty content") /\
  (Style.call_tool (RT := table_runtime) "geojson_preview_tool" (PDict [])
     empty_text_world).1
  = Raise (ValueError "Tool geojson_preview_tool returned empty text").
Proof. vm_compute. repeat split; reflexivity. Qed.

Lemma agent_loop_at_most_three_round_trips_witness :
  Gradio.chat_with_agent insistent_backend "hi" []
  = Gradio.chat_with_agent cut_off_backend "hi" [] /\
  forall s',
    Gradio.agent_loop insistent_backend 3 (Gradio.start "hi" []) = Ok s' ->
    (1 <= Gradio.inferences s' <= 3)%nat /\
    (List.length (Gradio.messages s')
     <= List.length (Gradio.messages (Gradio.start "hi" [])) + 2 * 3)%nat /\
    exists sent content,
      Gradio.messages_create insistent_backend (Gradio.inferences s' - 1) sent = Ok content /\
      Gradio.response_text s' = Gradio.join_lines (Gradio.text_parts content).
Proof.
  apply (agent_loop_at_most_three_round_trips insistent_backend cut_off_backend "hi" []).
  - intros n sent Hn. unfold cut_off_backend; cbn [Gradio.messages_create].
    by rewrite (proj2 (Nat.ltb_lt n 3)).
  - reflexivity.
Defined.

(** C8, as the specification words it, fails on the code.  The
    insistent backend produces text in its first two replies and asks for
    tools three times; when the loop gives up, [chat_with_agent] returns
    the empty text of the third reply, not the text produced so far, and
    the triple it returns is the very triple an answer without text and
    without tool request yields: nothing records that the ceiling was
    hit. *)
Lemma ceiling_hit_leaves_no_trace :
  Gradio.text_parts
    [Gradio.TextBlock "Let me list your styles.";
     Gradio.ToolUseBlock "toolu_0" "list_styles_tool" (PDict [])]
  = ["Let me list your styles."] /\
  match Gradio.agent_loop insistent_backend 3 (Gradio.start "hi" []) with
  | Ok s' => Gradio.inferences s' = 3%nat /\ Gradio.tool_calls s' = 3%nat
  | Raise _ => False
  end /\
  Gradio.chat_with_agent insistent_backend "hi" [] = Ok ("", [("hi", "")], "") /\
  Gradio.chat_with_agent silent_backend "hi" [] = Ok ("", [("hi", "")], "").
Proof. vm_compute. repeat split; reflexivity. Qed.

End Scenarios.

(** * The further properties on the scenarios *)

Section ScenariosCoverage.
Import Style.

Lemma returned_value {A} (r : result A) (default : A) :
  is_ok r = true -> r = Ok (value_or default r).
Proof. destruct r; [done|discriminate]. Qed.

Lemma should_retry_keys_declared_witness :
  exists target,
    assoc "finalize" retry_table = Some target /\
    Engine.resolve (create_workflow (RT := table_runtime)) Validate exhausted_state
    = inl target.
Proof.
  apply (should_retry_keys_declared (RT := table_runtime) exhausted_state "finalize").
  reflexivity.
Defined.

Lemma error_is_sticky_witness :
  error_set (value_or ∅ failed_validation.1) = true /\
  should_retry (value_or ∅ failed_validation.1) = Ok "error".
Proof.
  apply (error_is_sticky (RT := table_runtime) Validate failed_state retry_world
           (value_or ∅ failed_validation.1) failed_validation.2).
  - apply (returned failed_validation). vm_compute. reflexivity.
  - reflexivity.
Defined.

Lemma analyze_survives_tool_failure_witness :
  exists w',
    analyze_requirements_node (RT := table_runtime)
      (initial_state requirements) failing_tools_world
    = (Ok (<["style_analysis" := PStr "dark-v11"]>
             (<["existing_styles" := PList []]> (initial_state requirements))), w').
Proof.
  apply (analyze_survives_tool_failure (RT := table_runtime)
           (initial_state requirements) failing_tools_world
           (PStr requirements) "dark-v11"
           (ValueError "Tool list_styles_tool failed: quota exceeded"));
    reflexivity.
Defined.

Lemma create_style_node_all_or_nothing_witness :
  (exists created_id next,
      py_succ (get analyzed.1 "iteration_count" (PInt 0)) = Ok next /\
      value_or ∅ first_creation.1
      = <["iteration_count" := next]> (<["created_style_id" := created_id]> analyzed.1) /\
      value_or ∅ first_creation.1 !! "error" = analyzed.1 !! "error") \/
  (exists e,
      value_or ∅ first_creation.1
      = <["error" := PStr ("Failed to create style: " +:+ str_exn e)]> analyzed.1 /\
      value_or ∅ first_creation.1 !! "iteration_count" = analyzed.1 !! "iteration_count" /\
      value_or ∅ first_creation.1 !! "created_style_id"
      = analyzed.1 !! "created_style_id").
Proof.
  apply (create_style_node_all_or_nothing (RT := table_runtime)
           analyzed.1 analyzed.2 (value_or ∅ first_creation.1) first_creation.2).
  apply (returned first_creation). vm_compute. reflexivity.
Defined.

Lemma verdict_is_substring_test_witness :
  exists w',
    validate_style_node (RT := table_runtime) created_state wordy_world
    = (Ok (<["final_style" := value_or PNone retrieval.1]>
             (<["validation_passed" := PBool true]>
                (<["validation_result" :=
                     PStr ("FAIL: the style does not " +:+ "pass" +:+
                           " the contrast check")]> created_state))), w').
Proof.
  apply (verdict_is_substring_test (RT := table_runtime) created_state wordy_world
           retrieval.2 (value_or PNone retrieval.1)
           "FAIL: the style does not " "pass" " the contrast check").
  - reflexivity.
  - by eexists.
  - by eexists.
  - apply (returned retrieval). vm_compute. reflexivity.
  - reflexivity.
  - reflexivity.
Defined.

Lemma retry_loop_terminates_by_router_witness :
  exists final visits w',
    Engine.run 3 (create_workflow (RT := table_runtime))
      (initial_state requirements) failing_tools_world
    = (Engine.Final final, visits, w') /\
    (1 <= visits Create <= 3)%nat.
Proof.
  apply (retry_loop_terminates_by_router (RT := table_runtime) 3
           (initial_state requirements) failing_tools_world 0);
    [lia | reflexivity | lia].
Defined.

Lemma classify_then_route_witness :
  exists label count,
    (classified one_restaurant).2 = retry_world /\
    value_or ∅ (classified one_restaurant).1 !! "data_type" = Some (PStr label) /\
    label ∈ declared_domain /\
    value_or ∅ (classified one_restaurant).1 !! "feature_count" = Some (PInt count) /\
    0 <= count /\
    GeoJSON.route_by_data_type (value_or ∅ (classified one_restaurant).1)
    = Ok ("analyze_" +:+ label) /\
    is_Some (assoc ("analyze_" +:+ label) GeoJSON.routing_table).
Proof.
  apply (classify_then_route (GeoJSON.initial_state one_restaurant) retry_world).
  apply (returned (classified one_restaurant)). vm_compute. reflexivity.
Defined.

Lemma classify_two_types_mixed_witness :
  value_or ∅ (classified point_and_multipoint).1 !! "data_type" = Some (PStr "mixed").
Proof.
  apply (classify_two_types_mixed
           (GeoJSON.initial_state point_and_multipoint) retry_world
           (value_or ∅ (classified point_and_multipoint).1)
           (classified point_and_multipoint).2
           point_and_multipoint
           (PList [feature_of "Point"; feature_of "MultiPoint"])
           [feature_of "Point"; feature_of "MultiPoint"]
           (feature_of "Point") (feature_of "MultiPoint") "Point" "MultiPoint").
  - apply (returned (classified point_and_multipoint)). vm_compute. reflexivity.
  - reflexivity.
  - reflexivity.
  - reflexivity.
  - constructor.
  - do 1 constructor. constructor.
  - reflexivity.
  - reflexivity.
  - discriminate.
Defined.

Lemma assess_quality_balanced_witness :
  exists (data features : pyval) (items : list pyval) (found : list string)
         (passed_n total : Z),
    assessed.2 = retry_world /\
    GeoJSON.initial_state one_restaurant !! "geojson_data" = Some data /\
    py_get data "features" (PList []) = Ok features /\
    py_iter features = Ok items /\
    total = Z.of_nat (List.length items) + 2 /\
    0 <= passed_n <= total /\
    Z.of_nat (List.length found) + passed_n = total /\
    value_or ∅ assessed.1 !! "issues" = Some (PList (PStr <$> found)) /\
    value_or ∅ assessed.1 !! "quality_score"
    = Some (PFloat (inject_Z passed_n / inject_Z total)).
Proof.
  apply (assess_quality_balanced (RT := table_runtime)
           (GeoJSON.initial_state one_restaurant) retry_world).
  apply (returned assessed). vm_compute. reflexivity.
Defined.

Lemma assess_quality_empty_witness :
  GeoJSON.assess_quality_node (RT := table_runtime)
    (GeoJSON.initial_state (PDict [("type", PStr "FeatureCollection")])) retry_world
  = (Ok (<["issues" := PList [PStr "No features in dataset"]]>
           (<["quality_score" := PFloat (inject_Z 1 / inject_Z 2)]>
              (GeoJSON.initial_state (PDict [("type", PStr "FeatureCollection")])))),
     retry_world).
Proof.
  apply (assess_quality_empty (RT := table_runtime)
           (GeoJSON.initial_state (PDict [("type", PStr "FeatureCollection")]))
           retry_world (PDict [("type", PStr "FeatureCollection")]));
    reflexivity.
Defined.

Lemma recommendations_are_list_items_witness :
  exists (content : string) (kept : list string),
    llm_reply advice_world (llm_calls advice_world) = Ok content /\
    value_or ∅ recommended.1
    = <["recommendations" := PList (PStr <$> kept)]> (GeoJSON.initial_state one_restaurant) /\
    (List.length kept <= List.length (split_lines content))%nat /\
    Forall (fun r => exists c r', r = String c r' /\
                                  (is_digit c = true \/ c = "-"%char)) kept.
Proof.
  apply (recommendations_are_list_items (RT := table_runtime)
           (GeoJSON.initial_state one_restaurant) advice_world
           (value_or ∅ recommended.1) recommended.2).
  apply (returned recommended). vm_compute. reflexivity.
Defined.

Lemma extract_ui_resources_sound_witness :
  exists item res,
    item ∈ [text_part "Style created"; preview_part] /\
    item_type item = Some "resource" /\
    item_resource item = Some res /\
    String.prefix "ui://mapbox/" (res_uri res) = true /\
    (forall text, res_text res = Some text -> text <> "" ->
                  Gradio.ui_uri preview_resource = text) /\
    (res_text res = None \/ res_text res = Some "" ->
     Gradio.ui_uri preview_resource = res_uri res).
Proof.
  apply (extract_ui_resources_sound [text_part "Style created"; preview_part]
           preview_resource).
  vm_compute. constructor.
Defined.

Lemma agent_loop_appends_round_trips_witness :
  exists trips : list (list Gradio.block * list Gradio.tool_result),
    Gradio.messages
      (value_or (Gradio.start "hi" [])
         (Gradio.agent_loop insistent_backend 3 (Gradio.start "hi" [])))
    = (Gradio.messages (Gradio.start "hi" []) ++ concat (round_trip <$> trips))%list /\
    (List.length trips <= 3)%nat /\
    Forall (fun trip => Gradio.tool_use_id <$> trip.2 = requested_ids trip.1 /\
                        requested_ids trip.1 <> []) trips /\
    exists found,
      Gradio.ui_resources
        (value_or (Gradio.start "hi" [])
           (Gradio.agent_loop insistent_backend 3 (Gradio.start "hi" [])))
      = (Gradio.ui_resources (Gradio.start "hi" []) ++ found)%list.
Proof.
  apply (agent_loop_appends_round_trips insistent_backend 3 (Gradio.start "hi" [])).
  apply returned_value. vm_compute. reflexivity.
Defined.

End ScenariosCoverage.
